(** * Immigration Assessment Assistant ([app.py]): text normalisation,
    PDF text extraction with local fallback, the roadmap client and the
    Markdown report formatter.

    Python [str] values are sequences of Unicode code points, so a string is
    a list of code points ([N]).  The built-in string methods the program
    calls ([str.split], [str.join], [str.strip]) are defined first; the four
    functions of [app.py] follow, in the order of the source. *)

From Stdlib Require Import Ascii String DecimalString.
From stdpp Require Import gmap strings list.

#[local] Open Scope N_scope.

(** ** Python strings *)

Abbreviation pystr := (list N).

(** An ASCII literal of the source as a Python string. *)
Fixpoint py (s : string) : pystr :=
  match s with
  | EmptyString => []
  | String a s' => N_of_ascii a :: py s'
  end.

Module Str.

(** [str.isspace] on one character: the code points CPython lists as
    whitespace (bidirectional type WS, B or S, or category Zs). *)
Definition isspace (c : N) : bool :=
  ((9 <=? c) && (c <=? 13)) || ((28 <=? c) && (c <=? 32))
  || (c =? 133) || (c =? 160) || (c =? 5760)
  || ((8192 <=? c) && (c <=? 8202))
  || (c =? 8232) || (c =? 8233) || (c =? 8239) || (c =? 8287)
  || (c =? 12288).

Definition space : N := 32.
Definition newline : N := 10.
Definition tab : N := 9.

(** A finished word is added to the result of [split]; an empty one is
    not. *)
Definition flush (w : pystr) : list pystr :=
  match w with
  | [] => []
  | _ :: _ => [w]
  end.

(** [s.split()] without a separator: the maximal runs of characters that
    are not whitespace, in order.  [w] is the word read so far. *)
Fixpoint split_from (w s : pystr) : list pystr :=
  match s with
  | [] => flush w
  | c :: s' =>
      if isspace c then flush w ++ split_from [] s'
      else split_from (w ++ [c]) s'
  end.

Definition split_ws (s : pystr) : list pystr := split_from [] s.

(** [sep.join(l)] *)
Fixpoint join (sep : pystr) (l : list pystr) : pystr :=
  match l with
  | [] => []
  | x :: l' =>
      match l' with
      | [] => x
      | _ :: _ => x ++ sep ++ join sep l'
      end
  end.

(** [s.lstrip()], [s.rstrip()] and [s.strip()] without an argument. *)
Fixpoint lstrip (s : pystr) : pystr :=
  match s with
  | [] => []
  | c :: s' => if isspace c then lstrip s' else s
  end.

Definition rstrip (s : pystr) : pystr := reverse (lstrip (reverse s)).

Definition strip (s : pystr) : pystr := rstrip (lstrip s).

(** [s.startswith(p)] *)
Fixpoint startswith (p s : pystr) : bool :=
  match p, s with
  | [], _ => true
  | _ :: _, [] => false
  | a :: p', b :: s' => (a =? b) && startswith p' s'
  end.

(** [s.split(sep)] for a non-empty separator: the text between the
    occurrences of [sep], found from the left and not overlapping; one
    fragment more than there are occurrences.  [cur] is the fragment read
    so far and [skip] the number of characters of a separator just found
    that are still to be passed over. *)
Fixpoint split_at (sep cur : pystr) (skip : nat) (s : pystr) : list pystr :=
  match s with
  | [] => [cur]
  | c :: s' =>
      match skip with
      | S k => split_at sep cur k s'
      | O =>
          if startswith sep s then cur :: split_at sep [] (length sep - 1) s'
          else split_at sep (cur ++ [c]) 0 s'
      end
  end.

Definition split (sep s : pystr) : list pystr := split_at sep [] 0 s.

End Str.

(** ** Normalisation to a single line

    [" ".join(extracted_text.split())] in [extract_text_from_pdf], and
    [" ".join(text.split()).strip()] in [fallback_extract_text]. *)

Definition normalize (text : pystr) : pystr :=
  Str.join (py " ") (Str.split_ws text).

Definition normalize_fallback (text : pystr) : pystr :=
  Str.strip (Str.join (py " ") (Str.split_ws text)).

(** A word: a non-empty run of characters none of which is whitespace. *)
Definition word (w : pystr) : Prop :=
  w ≠ [] ∧ Forall (λ c, Str.isspace c = false) w.

(** No two neighbouring characters of [s] are both whitespace. *)
Fixpoint single_spaced (s : pystr) : bool :=
  match s with
  | [] => true
  | c :: s' =>
      match s' with
      | [] => true
      | d :: _ => negb (Str.isspace c && Str.isspace d) && single_spaced s'
      end
  end.

(** The normalisation as the specification words it: every run of
    whitespace becomes one space ([in_run] tells that the character before
    was whitespace), and the whitespace at both ends is removed. *)
Fixpoint collapse_runs (in_run : bool) (s : pystr) : pystr :=
  match s with
  | [] => []
  | c :: s' =>
      if Str.isspace c then
        if in_run then collapse_runs true s'
        else Str.space :: collapse_runs true s'
      else c :: collapse_runs false s'
  end.

Definition normalize_spec (text : pystr) : pystr :=
  Str.strip (collapse_runs false text).

(** ** Python values, exceptions and results *)

(** The values a decoded JSON body holds.  A [dict] keeps the order in
    which its keys were inserted, which is the order a [for] loop visits
    them in.  A [float] is only ever printed by this program, and is kept as
    the text [str()] gives for it. *)
#[warnings="-register-all"] Inductive pyval :=
  | PNone
  | PBool (b : bool)
  | PInt (z : Z)
  | PFloat (text : pystr)
  | PStr (s : pystr)
  | PList (l : list pyval)
  | PDict (items : list (pystr * pyval)).

(** An exception: its class and [str(e)]. *)
Record exn := Exn { exn_class : string; exn_str : pystr }.

Inductive result (A : Type) :=
  | Ok (a : A)
  | Raise (e : exn).
Arguments Ok {A} a.
Arguments Raise {A} e.

Definition res_bind {A B} (m : result A) (k : A -> result B) : result B :=
  match m with
  | Ok a => k a
  | Raise e => Raise e
  end.

Declare Scope res_scope.
Delimit Scope res_scope with res.
Notation "'let!' x ':=' m 'in' k" := (res_bind m (fun x => k))
  (at level 10, x name, m at level 100, k at level 200) : res_scope.

Definition type_name (v : pyval) : string :=
  match v with
  | PNone => "NoneType"
  | PBool _ => "bool"
  | PInt _ => "int"
  | PFloat _ => "float"
  | PStr _ => "str"
  | PList _ => "list"
  | PDict _ => "dict"
  end.

(** [v.attr] where the type of [v] has no attribute [attr]. *)
Definition attribute_error (v : pyval) (attr : string) : exn :=
  Exn "AttributeError"
    (py "'" ++ py (type_name v) ++ py "' object has no attribute '"
     ++ py attr ++ py "'").

(** [for x in v] where [v] cannot be iterated. *)
Definition not_iterable (v : pyval) : exn :=
  Exn "TypeError" (py "'" ++ py (type_name v) ++ py "' object is not iterable").

(** [d.get(k)] on the items of a [dict], whose keys are distinct. *)
Fixpoint dict_lookup (items : list (pystr * pyval)) (k : pystr) : option pyval :=
  match items with
  | [] => None
  | (k', v) :: items' => if decide (k' = k) then Some v else dict_lookup items' k
  end.

(** [v.get(k, dflt)]: only a [dict] has the method. *)
Definition py_get (v : pyval) (k : pystr) (dflt : pyval) : result pyval :=
  match v with
  | PDict items => Ok (default dflt (dict_lookup items k))
  | _ => Raise (attribute_error v "get")
  end.

(** [v.split()], [v.split(sep)] and [v.strip()]: only a [str] has them. *)
Definition py_split_ws (v : pyval) : result (list pystr) :=
  match v with
  | PStr s => Ok (Str.split_ws s)
  | _ => Raise (attribute_error v "split")
  end.

Definition py_split (v : pyval) (sep : pystr) : result (list pystr) :=
  match v with
  | PStr s => Ok (Str.split sep s)
  | _ => Raise (attribute_error v "split")
  end.

Definition py_strip (v : pyval) : result pystr :=
  match v with
  | PStr s => Ok (Str.strip s)
  | _ => Raise (attribute_error v "strip")
  end.

(** The values a [for] loop over [v] visits: the elements of a list, the
    characters of a string, the keys of a dict. *)
Definition py_iter (v : pyval) : result (list pyval) :=
  match v with
  | PList l => Ok l
  | PStr s => Ok (map (fun c => PStr [c]) s)
  | PDict items => Ok (map (fun kv => PStr kv.1) items)
  | _ => Raise (not_iterable v)
  end.

(** [str(n)] for an [int]. *)
Definition str_int (z : Z) : pystr := py (NilZero.string_of_int (Z.to_int z)).

(** ** The user interface and the outside world *)

(** What the program shows through [st.warning] and [st.error]. *)
Inductive ui_event :=
  | Warning (msg : pystr)
  | Error (msg : pystr).

(** A computation that may show messages and may raise: from the messages
    shown so far to its outcome and the messages shown after it. *)
Definition ui (A : Type) : Type := list ui_event -> result A * list ui_event.

Definition ui_ret {A} (a : A) : ui A := fun log => (Ok a, log).

Definition ui_bind {A B} (m : ui A) (k : A -> ui B) : ui B :=
  fun log =>
    match m log with
    | (Ok a, log') => k a log'
    | (Raise e, log') => (Raise e, log')
    end.

Definition ui_lift {A} (r : result A) : ui A := fun log => (r, log).

(** [try: body except Exception as e: handler] *)
Definition ui_try {A} (body : ui A) (handler : exn -> ui A) : ui A :=
  fun log =>
    match body log with
    | (Ok a, log') => (Ok a, log')
    | (Raise e, log') => handler e log'
    end.

Definition st_warning (msg : pystr) : ui () := fun log => (Ok (), log ++ [Warning msg]).
Definition st_error (msg : pystr) : ui () := fun log => (Ok (), log ++ [Error msg]).

Declare Scope ui_scope.
Delimit Scope ui_scope with ui.
Notation "'do!' x '<-' m ';' k" := (ui_bind m (fun x => k))
  (at level 10, x name, m at level 100, k at level 200) : ui_scope.
Notation "m ';;' k" := (ui_bind m (fun _ => k))
  (at level 100, k at level 200, right associativity) : ui_scope.

(** The uploaded file: [getvalue()] gives its bytes. *)
Record UploadedFile := { getvalue : list Byte.byte }.

Inductive payload :=
  | Files (files : list (pystr * list Byte.byte))
  | Json (json : pyval).

Record request := {
  url : pystr;
  headers : list (pystr * pystr);
  body : payload
}.

(** A response of [requests.post]: its status and what [response.json()]
    does, which raises when the body is not JSON. *)
Record response := {
  status_code : Z;
  json : result pyval
}.

(** What is outside the program: the configured secrets, the remote
    services and the PyPDF2 library. *)
Record world := {
  (** [st.secrets[k]] *)
  secrets : pystr -> result pystr;
  (** [requests.post(...)], which raises on a transport failure *)
  post : request -> result response;
  (** [PyPDF2.PdfReader(f).pages], which raises when the file cannot be
      read (or the library is missing), and [page.extract_text()] of each
      page *)
  pdf_reader : UploadedFile -> result (list (result pystr))
}.

(** ** The program *)

#[local] Open Scope res_scope.
#[local] Open Scope ui_scope.

Definition nl : pystr := [Str.newline].

Section App.

Variable env : world.

(** [fallback_extract_text]: the text of the pages, read with PyPDF2 and
    joined into one line. *)
Fixpoint concat_pages (text : pystr) (pages : list (result pystr)) : result pystr :=
  match pages with
  | [] => Ok text
  | page :: pages' =>
      let! extracted := page in
      concat_pages (text ++ extracted) pages'
  end.

Definition fallback_extract_text (pdf_file : UploadedFile) : ui pystr :=
  ui_try
    (do! pages <- ui_lift (pdf_reader env pdf_file);
     do! text <- ui_lift (concat_pages [] pages);
     let single_line_text := Str.strip (Str.join (py " ") (Str.split_ws text)) in
     ui_ret single_line_text)
    (fun e =>
       st_error (py "Error in text extraction: " ++ exn_str e) ;;
       ui_ret []).

Definition ocr_url : pystr :=
  py "https://ocr-text-extraction.p.rapidapi.com/v1/ocr/".

(** [extract_text_from_pdf]: the text the OCR service finds in the file,
    joined into one line; the local extraction when the service fails.
    The headers are built before the [try], so a missing key is raised to
    the caller. *)
Definition extract_text_from_pdf (pdf_file : UploadedFile) : ui pystr :=
  do! key <- ui_lift (secrets env (py "RAPIDAPI_KEY"));
  let headers :=
    [(py "X-RapidAPI-Key", key);
     (py "X-RapidAPI-Host", py "ocr-text-extraction.p.rapidapi.com")] in
  ui_try
    (let pdf_bytes := getvalue pdf_file in
     do! response <- ui_lift
       (post env {| url := ocr_url; headers := headers;
                    body := Files [(py "pdf", pdf_bytes)] |});
     if (status_code response =? 200)%Z then
       do! parsed <- ui_lift (json response);
       do! extracted_text <- ui_lift (py_get parsed (py "text") (PStr []));
       do! words <- ui_lift (py_split_ws extracted_text);
       let single_line_text := Str.join (py " ") words in
       ui_ret single_line_text
     else
       fallback_extract_text pdf_file)
    (fun e =>
       st_warning (py "Using fallback PDF extraction method") ;;
       fallback_extract_text pdf_file).

Definition roadmap_url : pystr :=
  py "https://visa-roadmap-247572588539.us-central1.run.app/generate_roadmap".

(** [call_visa_roadmap_api]: the decoded body of the roadmap service's
    answer, or [None].  The 404 branch has no [return]: the function ends
    after it and so returns [None]. *)
Definition call_visa_roadmap_api (text : pystr) : ui pyval :=
  ui_try
    (let payload := PDict [(py "questionnaire", PStr text)] in
     do! response <- ui_lift
       (post env {| url := roadmap_url; headers := []; body := Json payload |});
     if (status_code response =? 200)%Z then
       ui_lift (json response)
     else if (status_code response =? 404)%Z then
       st_error (py "API Error: Data Not Found ("
                 ++ str_int (status_code response) ++ py ")") ;;
       ui_ret PNone
     else
       st_error (py "API Error: " ++ str_int (status_code response)) ;;
       ui_ret PNone)
    (fun e =>
       st_error (py "API Error: " ++ exn_str e) ;;
       ui_ret PNone).

End App.

Section Formatter.

(** [str(v)] for a list or a dict [v]: the [repr] of its parts, which
    follows the Unicode character database and is not defined here. *)
Variable repr_container : pyval -> pystr.

(** [f"{v}"] *)
Definition py_format (v : pyval) : pystr :=
  match v with
  | PStr s => s
  | PNone => py "None"
  | PBool true => py "True"
  | PBool false => py "False"
  | PInt z => str_int z
  | PFloat text => text
  | PList _ | PDict _ => repr_container v
  end.

(** The separator of the questionnaire's fragments: U+00E2, U+2014. *)
Definition delimiter : pystr := [226; 8212].

Definition title : pystr := py "# Immigration Profile Report" ++ nl.
Definition heading1 : pystr := py "## 1. Questionnaire and Response:" ++ nl.
Definition heading2 : pystr :=
  py "## 2. Job Roles Based on Education and Work Experience:" ++ nl.
Definition heading3 : pystr := py "## 3. NOC Codes:" ++ nl.
Definition heading4 : pystr := py "## 4. CRS Score Breakdown:" ++ nl.
Definition heading5 : pystr := py "## 5. Roadmap for Canada Immigration:" ++ nl.

(** [f"- {s}\n"] *)
Definition list_item (s : pystr) : pystr := py "- " ++ s ++ nl.

(** The loop over the fragments of the questionnaire: a fragment that is
    empty once stripped adds nothing. *)
Fixpoint questionnaire_loop (markdown_content : list pystr) (lines : list pystr)
  : list pystr :=
  match lines with
  | [] => markdown_content
  | line :: lines' =>
      match Str.strip line with
      | [] => questionnaire_loop markdown_content lines'
      | _ :: _ =>
          questionnaire_loop
            (markdown_content ++ [list_item (Str.strip line)]) lines'
      end
  end.

(** The loop over the NOC codes: every entry adds an item. *)
Fixpoint noc_loop (markdown_content : list pystr) (nocs : list pyval)
  : result (list pystr) :=
  match nocs with
  | [] => Ok markdown_content
  | noc :: nocs' =>
      let! stripped := py_strip noc in
      noc_loop (markdown_content ++ [list_item stripped]) nocs'
  end.

(** The list [markdown_content] when the function reaches its [return]. *)
Definition markdown_content (data : gmap pystr pyval) : result (list pystr) :=
  let markdown_content := [] in
  let markdown_content := markdown_content ++ [title] in
  let markdown_content := markdown_content ++ [heading1] in
  let questionnaire := default (PStr []) (data !! py "questionnaire") in
  let! lines := py_split questionnaire delimiter in
  let markdown_content := questionnaire_loop markdown_content lines in
  let markdown_content := markdown_content ++ [heading2] in
  let markdown_content :=
    markdown_content
    ++ [py_format (default (PStr []) (data !! py "job_roles")) ++ nl] in
  let markdown_content := markdown_content ++ [heading3] in
  let! nocs := py_iter (default (PList []) (data !! py "noc_codes")) in
  let! markdown_content := noc_loop markdown_content nocs in
  let markdown_content := markdown_content ++ [heading4] in
  let markdown_content :=
    markdown_content
    ++ [py_format (default (PStr []) (data !! py "crs_score")) ++ nl] in
  let markdown_content := markdown_content ++ [heading5] in
  let markdown_content :=
    markdown_content
    ++ [py_format (default (PStr []) (data !! py "roadmap")) ++ nl] in
  Ok markdown_content.

(** [convert_dict_to_markdown] *)
Definition convert_dict_to_markdown (data : gmap pystr pyval) : result pystr :=
  let! markdown_content := markdown_content data in
  Ok (Str.join nl markdown_content).

End Formatter.

(** ** The requests the program sends *)

Definition ocr_request (key : pystr) (pdf_file : UploadedFile) : request :=
  {| url := ocr_url;
     headers := [(py "X-RapidAPI-Key", key);
                 (py "X-RapidAPI-Host", py "ocr-text-extraction.p.rapidapi.com")];
     body := Files [(py "pdf", getvalue pdf_file)] |}.

Definition roadmap_request (text : pystr) : request :=
  {| url := roadmap_url; headers := [];
     body := Json (PDict [(py "questionnaire", PStr text)]) |}.

(** The world [env] with another local reader. *)
Definition with_reader (env : world)
    (reader : UploadedFile -> result (list (result pystr))) : world :=
  {| secrets := secrets env; post := post env; pdf_reader := reader |}.

(** What the local extraction reads: the text of the pages in their order,
    or the exception of the reader or of a page. *)
Definition local_text (env : world) (pdf_file : UploadedFile) : result pystr :=
  let! pages := pdf_reader env pdf_file in
  concat_pages [] pages.

(** ** The report as the specification describes it *)

Section Report.

Variable repr_container : pyval -> pystr.

Definition is_str (v : pyval) : bool :=
  match v with
  | PStr _ => true
  | _ => false
  end.

Definition is_str_list (v : pyval) : bool :=
  match v with
  | PList l => forallb is_str l
  | _ => false
  end.

(** The dictionaries of the data model, as far as the formatter depends
    on it: [questionnaire], when present, is a string, and [noc_codes],
    when present, a sequence of strings.  The other fields are only
    printed. *)
Definition roadmap_result (data : gmap pystr pyval) : bool :=
  from_option is_str true (data !! py "questionnaire")
  && from_option is_str_list true (data !! py "noc_codes").

(** One list item for each fragment that is not empty once trimmed. *)
Definition fragment_items (fragments : list pystr) : list pystr :=
  list_item <$> filter (λ f, f ≠ []) (Str.strip <$> fragments).

(** One list item for each entry. *)
Definition noc_items (entries : list pystr) : list pystr :=
  (λ noc, list_item (Str.strip noc)) <$> entries.

(** The text printed for a field that is passed through, empty when the
    field is absent. *)
Definition field_text (data : gmap pystr pyval) (k : string) : pystr :=
  py_format repr_container (default (PStr []) (data !! py k)).

(** The blocks of a report: the title and the five sections in their
    order, with the list items of the first and the third. *)
Definition report (data : gmap pystr pyval) (q_items n_items : list pystr)
  : list pystr :=
  [title; heading1] ++ q_items
  ++ [heading2; field_text data "job_roles" ++ nl; heading3] ++ n_items
  ++ [heading4; field_text data "crs_score" ++ nl;
      heading5; field_text data "roadmap" ++ nl].

(** Neither the first nor the last character of [t] is whitespace. *)
Definition trimmed (t : pystr) : Prop :=
  (∀ c, head t = Some c → Str.isspace c = false)
  ∧ (∀ c, last t = Some c → Str.isspace c = false).

(** Empty, or whitespace only. *)
Definition blank (s : pystr) : bool := forallb Str.isspace s.

(** [sep] occurs in [s]. *)
Fixpoint contains (sep s : pystr) : bool :=
  Str.startswith sep s
  || match s with
     | [] => false
     | _ :: s' => contains sep s'
     end.

End Report.

(** ** The script of the page

    The statements of [app.py] outside its functions, which Streamlit runs
    from top to bottom at every interaction.  A run is described by what it
    puts on the page, in order, and by how it ends.  The calls of the
    Streamlit library that only put an element on the page are taken not to
    raise. *)

(** [bool(v)], as [if v:] tests it.  The text of a [float] that is zero is
    ["0.0"] or ["-0.0"]. *)
Definition truthy (v : pyval) : bool :=
  match v with
  | PNone => false
  | PBool b => b
  | PInt z => negb (z =? 0)%Z
  | PFloat text =>
      negb (bool_decide (text = py "0.0") || bool_decide (text = py "-0.0"))
  | PStr s => negb (bool_decide (s = []))
  | PList l => match l with [] => false | _ :: _ => true end
  | PDict items => match items with [] => false | _ :: _ => true end
  end.

(** [KeyError(k)] for a key [k] whose [repr] is [k] between single quotes,
    as for the keys this program uses. *)
Definition key_error (k : pystr) : exn :=
  Exn "KeyError" (py "'" ++ k ++ py "'").

(** [v[k]] for a string [k] (messages of CPython 3.11 and later). *)
Definition py_getitem (v : pyval) (k : pystr) : result pyval :=
  match v with
  | PDict items =>
      match dict_lookup items k with
      | Some x => Ok x
      | None => Raise (key_error k)
      end
  | PList _ =>
      Raise (Exn "TypeError" (py "list indices must be integers or slices, not str"))
  | PStr _ =>
      Raise (Exn "TypeError" (py "string indices must be integers, not 'str'"))
  | _ =>
      Raise (Exn "TypeError"
               (py "'" ++ py (type_name v) ++ py "' object is not subscriptable"))
  end.

(** The dictionary [convert_dict_to_markdown] looks its keys up in, when it
    is called with the value [v]: [v.get] exists only for a [dict]. *)
Definition py_dict (v : pyval) : result (gmap pystr pyval) :=
  match v with
  | PDict items => Ok (list_to_map items)
  | _ => Raise (attribute_error v "get")
  end.

(** [extracted_text[:500] + "..." if len(extracted_text) > 500 else
    extracted_text] *)
Definition preview (extracted_text : pystr) : pystr :=
  if (500 <? length extracted_text)%nat then take 500 extracted_text ++ py "..."
  else extracted_text.

(** What a run puts on the page. *)
Inductive element :=
  | Message (e : ui_event)
  | PageConfig (page_title layout : pystr)
  | Title (body : pystr)
  | FileUploader (label type : pystr)
  | Spinner (text : pystr)
  | Success (body : pystr)
  | Expander (label : pystr) (expanded : bool)
  | Text (body : pystr)
  | Button (label : pystr)
  | Subheader (body : pystr)
  | Markdown (body : pyval)
  | DownloadButton (label : pystr) (data : list Byte.byte) (file_name mime : pystr)
  | Sidebar
  | Header (body : pystr)
  | Written (body : pystr).

(** How a run ends: at the end of the script, at [st.stop()], or with an
    exception that nothing catches. *)
Inductive ending (A : Type) :=
  | Done (a : A)
  | Stopped
  | Failed (e : exn).
Arguments Done {A} a.
Arguments Stopped {A}.
Arguments Failed {A} e.

Definition page (A : Type) : Type := list element -> ending A * list element.

Definition page_ret {A} (a : A) : page A := fun shown => (Done a, shown).

Definition page_bind {A B} (m : page A) (k : A -> page B) : page B :=
  fun shown =>
    match m shown with
    | (Done a, shown') => k a shown'
    | (Stopped, shown') => (Stopped, shown')
    | (Failed e, shown') => (Failed e, shown')
    end.

(** A call of the Streamlit library that puts [e] on the page. *)
Definition put (e : element) : page () := fun shown => (Done (), shown ++ [e]).

(** [st.stop()] *)
Definition st_stop {A} : page A := fun shown => (Stopped, shown).

Definition page_lift {A} (r : result A) : page A :=
  fun shown =>
    match r with
    | Ok a => (Done a, shown)
    | Raise e => (Failed e, shown)
    end.

(** A call of one of the functions above: the messages it shows go on the
    page. *)
Definition page_call {A} (m : ui A) : page A :=
  fun shown =>
    match m [] with
    | (Ok a, log) => (Done a, shown ++ (Message <$> log))
    | (Raise e, log) => (Failed e, shown ++ (Message <$> log))
    end.

Declare Scope page_scope.
Delimit Scope page_scope with page.
Notation "'do!' x '<-' m ';' k" := (page_bind m (fun x => k))
  (at level 10, x name, m at level 100, k at level 200) : page_scope.
Notation "m ';;' k" := (page_bind m (fun _ => k))
  (at level 100, k at level 200, right associativity) : page_scope.

(** What a run is given from outside, besides the [world]. *)
Record session := {
  (** [k in st.secrets] *)
  secrets_contains : pystr -> result bool;
  (** what [st.file_uploader] returns *)
  uploaded : option UploadedFile;
  (** what [st.button("Generate")] returns *)
  generate : bool;
  (** the bytes [MarkdownPdf] saves for a Markdown document of one section *)
  markdown_pdf : pystr -> result (list Byte.byte)
}.

Definition how_to_use : pystr :=
  nl ++ py "    1. Upload your questionnaire PDF file"
  ++ nl ++ py "    2. Wait for text extraction"
  ++ nl ++ py "    3. Click 'Generate' button"
  ++ nl ++ py "    4. Explore the sections:"
  ++ nl ++ py "       - Immigration Roadmap"
  ++ nl ++ py "       - CRS Score Details"
  ++ nl ++ py "       - Eligible Job Roles"
  ++ nl ++ py "       - NOC Codes"
  ++ nl ++ py "    5. Download your report as PDF"
  ++ nl ++ py "    ".

Section Script.

#[local] Open Scope page_scope.

Variable repr_container : pyval -> pystr.
Variable env : world.
Variable visit : session.

(** The loop over [result["noc_codes"]] of the display. *)
Fixpoint show_nocs (nocs : list pyval) : page () :=
  match nocs with
  | [] => page_ret ()
  | noc :: nocs' =>
      put (Markdown noc) ;;
      put (Markdown (PStr (py "---"))) ;;
      show_nocs nocs'
  end.

(** The body of [if result:]: the four sections of the display, then the
    report and its download button. *)
Definition show_result (result : pyval) : page () :=
  put (Subheader (py "Your Immigration Roadmap")) ;;
  put (Expander (py "Roadmap") true) ;;
  do! roadmap <- page_lift (py_getitem result (py "roadmap"));
  put (Markdown roadmap) ;;
  put (Expander (py "CRS Score Details") false) ;;
  do! crs_score <- page_lift (py_getitem result (py "crs_score"));
  put (Markdown crs_score) ;;
  put (Expander (py "Eligible Job Roles") false) ;;
  do! job_roles <- page_lift (py_getitem result (py "job_roles"));
  put (Markdown job_roles) ;;
  put (Expander (py "NOC Codes") false) ;;
  do! noc_codes <- page_lift (py_getitem result (py "noc_codes"));
  do! nocs <- page_lift (py_iter noc_codes);
  show_nocs nocs ;;
  do! data <- page_lift (py_dict result);
  do! response <- page_lift (convert_dict_to_markdown repr_container data);
  do! pdf_output <- page_lift (markdown_pdf visit response);
  put (DownloadButton (py "Download Report as PDF") pdf_output
         (py "immigration_assessment.pdf") (py "application/pdf")).

(** The body of [if uploaded_file is not None:]. *)
Definition process_upload (uploaded_file : UploadedFile) : page () :=
  put (Spinner (py "Extracting text from PDF...")) ;;
  do! extracted_text <- page_call (extract_text_from_pdf env uploaded_file);
  match extracted_text with
  | [] => page_ret ()
  | _ :: _ =>
      put (Success (py "PDF text extracted successfully!")) ;;
      put (Expander (py "Preview extracted text") false) ;;
      put (Text (preview extracted_text))
  end ;;
  put (Button (py "Generate")) ;;
  if generate visit then
    put (Spinner (py "Processing...")) ;;
    do! result <- page_call (call_visa_roadmap_api env extracted_text);
    if truthy result then show_result result else page_ret ()
  else page_ret ().

Definition show_sidebar : page () :=
  put Sidebar ;;
  put (Header (py "How to Use")) ;;
  put (Written how_to_use).

(** The script. *)
Definition script : page () :=
  put (PageConfig (py "Immigration Assessment Assistant") (py "wide")) ;;
  put (Title (py "Immigration Assessment Assistant")) ;;
  do! configured <- page_lift (secrets_contains visit (py "RAPIDAPI_KEY"));
  (if negb configured then
     put (Message
            (Error (py "Please configure your RapidAPI key in .streamlit/secrets.toml"))) ;;
     st_stop
   else page_ret ()) ;;
  put (FileUploader (py "Upload your questionnaire PDF") (py "pdf")) ;;
  match uploaded visit with
  | Some uploaded_file => process_upload uploaded_file
  | None => page_ret ()
  end ;;
  show_sidebar.

End Script.

(** The computation [m] only adds messages: it keeps the messages shown
    before, and neither its outcome nor what it adds depends on them. *)
Definition framed {A} (m : ui A) : Prop :=
  ∀ log, m log = ((m []).1, log ++ (m []).2).

(** ** The page a run shows, part by part *)

(** What is on the page when the upload is looked at. *)
Definition page_top : list element :=
  [PageConfig (py "Immigration Assessment Assistant") (py "wide");
   Title (py "Immigration Assessment Assistant");
   FileUploader (py "Upload your questionnaire PDF") (py "pdf")].

(** The success message and the preview, for a text that is not empty. *)
Definition preview_elements (extracted_text : pystr) : list element :=
  match extracted_text with
  | [] => []
  | _ :: _ =>
      [Success (py "PDF text extracted successfully!");
       Expander (py "Preview extracted text") false;
       Text (preview extracted_text)]
  end.

(** From the upload to the answer of the roadmap service: the extraction
    with its messages [log1], the button, the call with its messages
    [log2]. *)
Definition upload_elements (extracted_text : pystr) (log1 log2 : list ui_event)
  : list element :=
  [Spinner (py "Extracting text from PDF...")] ++ (Message <$> log1)
  ++ preview_elements extracted_text
  ++ [Button (py "Generate"); Spinner (py "Processing...")]
  ++ (Message <$> log2).

(** The four sections of the display. *)
Definition display_elements (roadmap crs_score job_roles : pyval)
    (nocs : list pyval) : list element :=
  [Subheader (py "Your Immigration Roadmap");
   Expander (py "Roadmap") true; Markdown roadmap;
   Expander (py "CRS Score Details") false; Markdown crs_score;
   Expander (py "Eligible Job Roles") false; Markdown job_roles;
   Expander (py "NOC Codes") false]
  ++ concat ((λ noc, [Markdown noc; Markdown (PStr (py "---"))]) <$> nocs).

Definition download_button (pdf_output : list Byte.byte) : element :=
  DownloadButton (py "Download Report as PDF") pdf_output
    (py "immigration_assessment.pdf") (py "application/pdf").

Definition sidebar_elements : list element :=
  [Sidebar; Header (py "How to Use"); Written how_to_use].

(** An element that only a run that reaches the download puts on the
    page. *)
Definition closing (e : element) : bool :=
  match e with
  | DownloadButton _ _ _ _ | Sidebar | Header _ | Written _ => true
  | _ => false
  end.

(** An element that only the display of a result puts on the page. *)
Definition of_result (e : element) : bool :=
  match e with
  | Subheader _ | Markdown _ | DownloadButton _ _ _ _ => true
  | _ => false
  end.

(** The report of a result and its PDF, as the script computes them. *)
Definition report_pdf (repr_container : pyval -> pystr) (visit : session)
    (answer : pyval) : result (list Byte.byte) :=
  let! data := py_dict answer in
  let! response := convert_dict_to_markdown repr_container data in
  markdown_pdf visit response.

(** ** Sample inputs *)

(** A stand-in for the text of lists and dicts. *)
Definition sample_repr (v : pyval) : pystr := py "[...]".

Definition sample_file : UploadedFile :=
  {| getvalue := [Byte.x25; Byte.x50; Byte.x44; Byte.x46] |}.

(** A world with the key configured, in which the two services and the
    local reader behave as given. *)
Definition world_of (ocr roadmap : result response)
    (local : result (list (result pystr))) : world :=
  {| secrets := λ k,
       if decide (k = py "RAPIDAPI_KEY") then Ok (py "secret")
       else Raise (Exn "KeyError" k);
     post := λ r, if decide (url r = ocr_url) then ocr else roadmap;
     pdf_reader := λ _, local |}.

Definition not_json : result pyval :=
  Raise (Exn "JSONDecodeError" (py "Expecting value: line 1 column 1 (char 0)")).

Definition not_a_response : result response :=
  Raise (Exn "ConnectionError" (py "Max retries exceeded")).

(** The OCR service is unavailable (503), the roadmap service knows no
    data (404), and the document reads locally as one page. *)
Definition ocr_unavailable : world :=
  world_of (Ok {| status_code := 503; json := not_json |})
           (Ok {| status_code := 404; json := not_json |})
           (Ok [Ok (py "A B  C")]).

(** The OCR service is unavailable and the document cannot be read. *)
Definition unreadable : world :=
  world_of (Ok {| status_code := 503; json := not_json |})
           (Ok {| status_code := 404; json := not_json |})
           (Raise (Exn "PdfReadError" (py "EOF marker not found"))).

(** The OCR service answers 200 with an object without ['text']. *)
Definition ocr_without_text : world :=
  world_of (Ok {| status_code := 200;
                  json := Ok (PDict [(py "status", PStr (py "ok"))]) |})
           (Ok {| status_code := 404; json := not_json |})
           (Raise (Exn "PdfReadError" (py "EOF marker not found"))).

Definition fragment1 : pystr := py " Age: 30 ".
Definition fragment2 : pystr := py "Education: MSc".
Definition fragment3 : pystr := py " Language: CLB 9".

Definition sample_questionnaire : pystr :=
  fragment1 ++ delimiter ++ fragment2 ++ delimiter ++ fragment3.

Definition sample_noc_codes : list pystr := [py " 21231 "; py "  "].

Definition sample_result : gmap pystr pyval :=
  list_to_map
    [(py "questionnaire", PStr sample_questionnaire);
     (py "job_roles", PStr (py "Software developer"));
     (py "noc_codes", PList (PStr <$> sample_noc_codes));
     (py "roadmap", PStr (py "Apply through Express Entry."))].

Definition sample_result_no_noc : gmap pystr pyval :=
  list_to_map
    [(py "questionnaire", PStr (py "Age: 30"));
     (py "noc_codes", PList [])].

(** No key is configured. *)
Definition no_key : world :=
  {| secrets := λ k, Raise (key_error k);
     post := λ _, not_a_response;
     pdf_reader := λ _, Ok [Ok (py "A B  C")] |}.

(** The OCR service finds text; the document does not read locally. *)
Definition ocr_text : world :=
  world_of (Ok {| status_code := 200;
                  json := Ok (PDict [(py "text",
                                      PStr (py " A" ++ nl ++ py "B  C "))]) |})
           (Ok {| status_code := 404; json := not_json |})
           (Raise (Exn "PdfReadError" (py "EOF marker not found"))).

(** The OCR service answers 200 with [null] for the text; the document
    reads locally as two pages. *)
Definition ocr_null_text : world :=
  world_of (Ok {| status_code := 200;
                  json := Ok (PDict [(py "text", PNone)]) |})
           (Ok {| status_code := 200; json := not_json |})
           (Ok [Ok (py "first pa"); Ok (py "ge second  page ")]).

(** A visit with a file uploaded and the button pressed, in which a PDF is
    made of every report. *)
Definition visit_of (configured : bool) (file : option UploadedFile)
    (clicked : bool) : session :=
  {| secrets_contains := λ _, Ok configured;
     uploaded := file;
     generate := clicked;
     markdown_pdf := λ _, Ok [Byte.x25; Byte.x50; Byte.x44; Byte.x46] |}.

(** The OCR service is unavailable, the document reads locally as one
    page, and the roadmap service answers 200 with [answer]. *)
Definition roadmap_answers (answer : pyval) : world :=
  world_of (Ok {| status_code := 503; json := not_json |})
           (Ok {| status_code := 200; json := Ok answer |})
           (Ok [Ok (py "A B  C")]).

Definition sample_answer : pyval :=
  PDict [(py "questionnaire", PStr sample_questionnaire);
         (py "job_roles", PStr (py "Software developer"));
         (py "noc_codes", PList (PStr <$> sample_noc_codes));
         (py "crs_score", PStr (py "470"));
         (py "roadmap", PStr (py "Apply through Express Entry."))].

(** An answer without ['crs_score']. *)
Definition partial_answer : pyval :=
  PDict [(py "roadmap", PStr (py "Apply through Express Entry."));
         (py "job_roles", PStr (py "Software developer"));
         (py "noc_codes", PList [])].

(** An answer whose questionnaire is [null]. *)
Definition null_questionnaire_answer : pyval :=
  PDict [(py "questionnaire", PNone);
         (py "job_roles", PStr (py "Software developer"));
         (py "noc_codes", PList []);
         (py "crs_score", PStr (py "470"));
         (py "roadmap", PStr (py "Apply through Express Entry."))].

(** Dictionaries outside the data model. *)
Definition null_questionnaire : gmap pystr pyval :=
  list_to_map [(py "questionnaire", PNone); (py "noc_codes", PList [])].

Definition noc_codes_number : gmap pystr pyval :=
  list_to_map [(py "questionnaire", PStr (py "Age: 30"));
               (py "noc_codes", PInt 21231)].

Definition noc_codes_with_null : gmap pystr pyval :=
  list_to_map [(py "questionnaire", PStr (py "Age: 30"));
               (py "noc_codes",
                PList ((PStr <$> [py "21231"]) ++ PNone :: [PStr (py "21232")]))].

Definition noc_codes_string : gmap pystr pyval :=
  list_to_map [(py "questionnaire", PStr (py "Age: 30"));
               (py "noc_codes", PStr (py "21 2"))].

(** [sample_result] with one more key. *)
Definition sample_result_more : gmap pystr pyval :=
  <[py "status" := PStr (py "ok")]> sample_result.

(** * Properties *)

(** ** Strings *)

Lemma py_space : py " " = [Str.space].
Proof. reflexivity. Qed.

Lemma space_isspace : Str.isspace Str.space = true.
Proof. reflexivity. Qed.

Lemma flush_words w :
  Forall (λ c, Str.isspace c = false) w → Forall word (Str.flush w).
Proof.
  intros Hw. destruct w as [|c w]; simpl; [constructor|].
  constructor; [|constructor]. split; [discriminate|assumption].
Qed.

Lemma split_from_words s : ∀ w,
  Forall (λ c, Str.isspace c = false) w → Forall word (Str.split_from w s).
Proof.
  induction s as [|c s IH]; intros w Hw; simpl.
  - by apply flush_words.
  - destruct (Str.isspace c) eqn:Hc.
    + apply Forall_app. split; [by apply flush_words|]. apply IH. constructor.
    + apply IH. apply Forall_app. split; [assumption|]. by repeat constructor.
Qed.

Lemma split_ws_words s : Forall word (Str.split_ws s).
Proof. apply split_from_words. constructor. Qed.

Lemma split_from_app x : ∀ w s,
  Forall (λ c, Str.isspace c = false) x →
  Str.split_from w (x ++ s) = Str.split_from (w ++ x) s.
Proof.
  induction x as [|c x IH]; intros w s Hx; simpl.
  - by rewrite app_nil_r.
  - inversion Hx as [|? ? Hc Hx']; subst. rewrite Hc, IH by assumption.
    by rewrite <- app_assoc.
Qed.

Lemma split_join ws :
  Forall word ws → Str.split_ws (Str.join [Str.space] ws) = ws.
Proof.
  unfold Str.split_ws. induction ws as [|x ws IH]; intros Hws; [reflexivity|].
  inversion Hws as [|? ? [Hne Hx] Hws']; subst.
  destruct ws as [|y ws].
  - pose proof (split_from_app x [] [] Hx) as Hs. rewrite app_nil_r in Hs.
    simpl in *. rewrite Hs. by destruct x.
  - change (Str.join [Str.space] (x :: y :: ws))
      with (x ++ [Str.space] ++ Str.join [Str.space] (y :: ws)).
    rewrite split_from_app by assumption.
    change (Str.flush x ++ Str.split_from [] (Str.join [Str.space] (y :: ws))
            = x :: y :: ws).
    rewrite IH by assumption. by destruct x.
Qed.

Lemma join_head sep x ws : x ≠ [] → head (Str.join sep (x :: ws)) = head x.
Proof.
  intros Hx. destruct ws; [reflexivity|].
  change (Str.join sep (x :: l :: ws)) with (x ++ sep ++ Str.join sep (l :: ws)).
  rewrite head_app. destruct x; [done|reflexivity].
Qed.

Lemma join_elem sep ws c :
  c ∈ Str.join sep ws → c ∈ sep ∨ ∃ w, w ∈ ws ∧ c ∈ w.
Proof.
  induction ws as [|x ws IH]; intros Hc.
  - simpl in Hc. by apply elem_of_nil in Hc.
  - destruct ws as [|y ws].
    + right. exists x. split; [left|exact Hc].
    + change (Str.join sep (x :: y :: ws))
        with (x ++ sep ++ Str.join sep (y :: ws)) in Hc.
      apply elem_of_app in Hc as [Hc|Hc]; [right; exists x; split; [left|done]|].
      apply elem_of_app in Hc as [Hc|Hc]; [by left|].
      destruct (IH Hc) as [?|(w & Hw & Hcw)]; [by left|].
      right. exists w. split; [by right|done].
Qed.

Lemma single_spaced_app w t :
  Forall (λ c, Str.isspace c = false) w →
  single_spaced (w ++ t) = single_spaced t.
Proof.
  induction w as [|c w IH]; intros Hw; [reflexivity|].
  inversion Hw as [|? ? Hc Hw']; subst.
  change (single_spaced ((c :: w) ++ t))
    with (match w ++ t with
          | [] => true
          | d :: _ => negb (Str.isspace c && Str.isspace d) && single_spaced (w ++ t)
          end).
  rewrite Hc, IH by assumption. destruct (w ++ t) eqn:E; [|reflexivity].
  apply app_eq_nil in E as [_ ->]. reflexivity.
Qed.

Lemma join_single_spaced ws :
  Forall word ws → single_spaced (Str.join [Str.space] ws) = true.
Proof.
  induction ws as [|x ws IH]; intros Hws; [reflexivity|].
  inversion Hws as [|? ? [Hne Hx] Hws']; subst.
  destruct ws as [|y ws].
  - pose proof (single_spaced_app x [] Hx) as Hs. rewrite app_nil_r in Hs.
    exact Hs.
  - change (Str.join [Str.space] (x :: y :: ws))
      with (x ++ Str.space :: Str.join [Str.space] (y :: ws)).
    rewrite single_spaced_app by assumption.
    specialize (IH Hws'). inversion Hws' as [|? ? [Hyne Hy] _]; subst.
    pose proof (join_head [Str.space] y ws Hyne) as Hh.
    destruct (Str.join [Str.space] (y :: ws)) as [|d t] eqn:Hj.
    + reflexivity.
    + destruct y as [|d' y]; [done|]. simpl in Hh. injection Hh as ->.
      inversion Hy as [|? ? Hd _]; subst.
      change (negb (Str.isspace Str.space && Str.isspace d') && single_spaced (d' :: t) = true).
      by rewrite Hd, andb_false_r.
Qed.

Lemma single_spaced_lookup s : ∀ i c d,
  single_spaced s = true → s !! i = Some c → s !! S i = Some d →
  Str.isspace c = true → Str.isspace d = false.
Proof.
  induction s as [|a s IH]; intros i c d Hs Hi HSi Hc; [done|].
  destruct s as [|b s]; [done|].
  change (negb (Str.isspace a && Str.isspace b) && single_spaced (b :: s) = true) in Hs.
  apply andb_prop in Hs as [Hab Hs].
  destruct i as [|i].
  - simpl in Hi, HSi. injection Hi as ->. injection HSi as ->.
    rewrite Hc in Hab. simpl in Hab. by destruct (Str.isspace d).
  - by apply (IH i c d).
Qed.

(** *** Stripping *)

Lemma lstrip_id t :
  (∀ c, head t = Some c → Str.isspace c = false) → Str.lstrip t = t.
Proof.
  intros H. destruct t as [|c t]; [reflexivity|].
  simpl. by rewrite (H c eq_refl).
Qed.

Lemma rstrip_id t :
  (∀ c, last t = Some c → Str.isspace c = false) → Str.rstrip t = t.
Proof.
  intros H. unfold Str.rstrip. rewrite lstrip_id.
  - apply reverse_involutive.
  - intros c Hc. rewrite head_reverse in Hc. by apply H.
Qed.

Lemma lstrip_app x y :
  Str.lstrip (x ++ y)
  = match Str.lstrip x with [] => Str.lstrip y | _ :: _ => Str.lstrip x ++ y end.
Proof.
  induction x as [|c x IH]; [reflexivity|].
  simpl. destruct (Str.isspace c); [exact IH|reflexivity].
Qed.

Lemma rstrip_app a b :
  Str.rstrip (a ++ b)
  = match Str.rstrip b with [] => Str.rstrip a | _ :: _ => a ++ Str.rstrip b end.
Proof.
  unfold Str.rstrip. rewrite reverse_app, lstrip_app.
  destruct (Str.lstrip (reverse b)) as [|n r]; [reflexivity|].
  rewrite reverse_app, reverse_involutive.
  destruct (reverse (n :: r)) eqn:E; [|reflexivity].
  apply (f_equal length) in E. rewrite length_reverse in E. discriminate.
Qed.

Lemma rstrip_word w :
  Forall (λ c, Str.isspace c = false) w → Str.rstrip w = w.
Proof.
  intros Hw. apply rstrip_id. intros c Hc.
  apply last_Some in Hc as [l ->]. apply Forall_app in Hw as [_ Hw].
  by inversion Hw.
Qed.

Lemma join_first ws c :
  Forall word ws → head (Str.join [Str.space] ws) = Some c →
  Str.isspace c = false.
Proof.
  intros Hws Hc. destruct ws as [|x ws]; [done|].
  inversion Hws as [|? ? [Hne Hx] _]; subst.
  rewrite join_head in Hc by assumption.
  destruct x as [|d x]; [done|]. injection Hc as ->. by inversion Hx.
Qed.

Lemma join_last ws : ∀ c,
  Forall word ws → last (Str.join [Str.space] ws) = Some c →
  Str.isspace c = false.
Proof.
  induction ws as [|x ws IH]; intros c Hws Hc; [done|].
  inversion Hws as [|? ? [Hne Hx] Hws']; subst.
  destruct ws as [|y ws].
  - simpl in Hc. apply last_Some in Hc as [l ->].
    apply Forall_app in Hx as [_ Hx]. by inversion Hx.
  - change (Str.join [Str.space] (x :: y :: ws))
      with (x ++ Str.space :: Str.join [Str.space] (y :: ws)) in Hc.
    rewrite last_app_cons in Hc.
    inversion Hws' as [|? ? [Hyne _] _]; subst.
    pose proof (join_head [Str.space] y ws Hyne) as Hh.
    destruct (Str.join [Str.space] (y :: ws)) as [|d t] eqn:Hj.
    + by destruct y.
    + apply IH; [assumption|]. exact Hc.
Qed.

Lemma strip_join ws :
  Forall word ws → Str.strip (Str.join [Str.space] ws) = Str.join [Str.space] ws.
Proof.
  intros Hws. unfold Str.strip. rewrite lstrip_id.
  - apply rstrip_id. intros c. by apply join_last.
  - intros c. by apply join_first.
Qed.

(** *** The code against the specification's wording *)

Lemma lstrip_collapse_true s :
  Str.lstrip (collapse_runs true s) = collapse_runs true s.
Proof.
  induction s as [|c s IH]; [reflexivity|].
  simpl. destruct (Str.isspace c) eqn:Hc; [exact IH|].
  simpl. by rewrite Hc.
Qed.

Lemma collapse_true_lstrip s :
  collapse_runs true s = Str.lstrip (collapse_runs false s).
Proof.
  destruct s as [|c s]; [reflexivity|].
  simpl. destruct (Str.isspace c) eqn:Hc.
  - change (collapse_runs true s = Str.lstrip (collapse_runs true s)).
    by rewrite lstrip_collapse_true.
  - simpl. by rewrite Hc.
Qed.

Lemma rstrip_collapse s :
  (∀ w, w ≠ [] → Forall (λ c, Str.isspace c = false) w →
        Str.rstrip (w ++ collapse_runs false s)
        = Str.join [Str.space] (Str.split_from w s))
  ∧ Str.rstrip (collapse_runs true s)
    = Str.join [Str.space] (Str.split_from [] s).
Proof.
  induction s as [|c s [IHw IHe]]; (split; [intros w Hne Hw|]).
  - simpl. rewrite app_nil_r, rstrip_word by assumption. by destruct w.
  - reflexivity.
  - simpl. destruct (Str.isspace c) eqn:Hc.
    + assert (Str.flush w = [w]) as -> by by destruct w.
      change ([w] ++ Str.split_from [] s) with (w :: Str.split_from [] s).
      pose proof (split_ws_words s) as Hws. unfold Str.split_ws in Hws.
      replace (w ++ Str.space :: collapse_runs true s)
        with ((w ++ [Str.space]) ++ collapse_runs true s)
        by by rewrite <- app_assoc.
      rewrite rstrip_app, IHe.
      destruct (Str.split_from [] s) as [|y ws] eqn:Hsp.
      * simpl. rewrite rstrip_app. simpl. by apply rstrip_word.
      * inversion Hws as [|? ? [Hyne _] _]; subst.
        pose proof (join_head [Str.space] y ws Hyne) as Hh.
        change (Str.join [Str.space] (w :: y :: ws))
          with (w ++ Str.space :: Str.join [Str.space] (y :: ws)).
        destruct (Str.join [Str.space] (y :: ws)) as [|d t]; [by destruct y|].
        by rewrite <- app_assoc.
    + replace (w ++ c :: collapse_runs false s)
        with ((w ++ [c]) ++ collapse_runs false s)
        by by rewrite <- app_assoc.
      apply IHw.
      * by destruct w.
      * apply Forall_app. split; [assumption|]. by repeat constructor.
  - simpl. destruct (Str.isspace c) eqn:Hc.
    + exact IHe.
    + apply (IHw [c]); [discriminate|]. by repeat constructor.
Qed.

Lemma normalize_eq_spec text : normalize text = normalize_spec text.
Proof.
  unfold normalize, normalize_spec, Str.strip, Str.split_ws.
  rewrite py_space, <- collapse_true_lstrip.
  symmetry. apply rstrip_collapse.
Qed.

Lemma normalize_fallback_eq text : normalize_fallback text = normalize text.
Proof.
  unfold normalize_fallback, normalize. rewrite py_space.
  apply strip_join, split_ws_words.
Qed.

Lemma normalize_only_spaces text c :
  c ∈ normalize text → Str.isspace c = true → c = Str.space.
Proof.
  unfold normalize. rewrite py_space. intros Hc Hsp.
  apply join_elem in Hc as [Hc|(w & Hw & Hc)].
  - by apply list_elem_of_singleton in Hc.
  - pose proof (split_ws_words text) as Hws.
    rewrite Forall_forall in Hws. destruct (Hws w Hw) as [_ Hnw].
    rewrite Forall_forall in Hnw. rewrite (Hnw c Hc) in Hsp. discriminate.
Qed.

Lemma normalize_normalize s : normalize (normalize s) = normalize s.
Proof.
  unfold normalize. rewrite py_space.
  by rewrite (split_join _ (split_ws_words s)).
Qed.

(** ** Normalisation *)

(** C1: for every input string, the normalisation of both extraction
    functions gives a single line: the only whitespace characters left in
    it are plain spaces (so no newline and no tab), no two spaces are
    neighbours, it neither starts nor ends with whitespace, and it is the
    input with every run of whitespace collapsed to one space and the ends
    trimmed. *)
Theorem normalize_single_line (text : pystr) :
  let out := normalize text in
  normalize_fallback text = out
  ∧ (∀ c, c ∈ out → Str.isspace c = true → c = Str.space)
  ∧ (Str.newline ∉ out)
  ∧ (Str.tab ∉ out)
  ∧ (∀ i, out !! i = Some Str.space → out !! S i ≠ Some Str.space)
  ∧ (∀ c, head out = Some c → Str.isspace c = false)
  ∧ (∀ c, last out = Some c → Str.isspace c = false)
  ∧ out = Str.strip (collapse_runs false text).
Proof.
  intros out. subst out. pose proof (split_ws_words text) as Hws.
  repeat split.
  - apply normalize_fallback_eq.
  - apply normalize_only_spaces.
  - intros H. by apply normalize_only_spaces in H.
  - intros H. by apply normalize_only_spaces in H.
  - intros i Hi HSi. unfold normalize in *. rewrite py_space in *.
    pose proof (single_spaced_lookup _ i _ _ (join_single_spaced _ Hws) Hi HSi
                  space_isspace) as H.
    by rewrite space_isspace in H.
  - intros c. unfold normalize. rewrite py_space. by apply join_first.
  - intros c. unfold normalize. rewrite py_space. by apply join_last.
  - apply normalize_eq_spec.
Qed.

(** C6: the normalisation is idempotent, in both extraction functions:
    normalising a normalised string gives it back. *)
Theorem normalize_idempotent (s : pystr) :
  normalize (normalize s) = normalize s
  ∧ normalize_fallback (normalize_fallback s) = normalize_fallback s.
Proof.
  split; [apply normalize_normalize|].
  rewrite !normalize_fallback_eq. apply normalize_normalize.
Qed.

Example normalize_multi_line :
  normalize (py "  A B" ++ [Str.newline; Str.tab] ++ py " C  ") = py "A B C".
Proof. reflexivity. Qed.

Example normalize_empty : normalize [] = [].
Proof. reflexivity. Qed.

(** ** The report formatter *)

Section FormatterProperties.

Variable repr_container : pyval -> pystr.

Lemma questionnaire_loop_items lines : ∀ acc,
  questionnaire_loop acc lines = acc ++ fragment_items lines.
Proof.
  unfold fragment_items.
  induction lines as [|line lines IH]; intros acc; simpl.
  - by rewrite app_nil_r.
  - destruct (Str.strip line) as [|c r] eqn:Hs.
    + rewrite filter_cons_False by (intros H; by apply H). apply IH.
    + rewrite filter_cons_True by discriminate.
      rewrite IH, <- app_assoc. reflexivity.
Qed.

Lemma noc_loop_items entries : ∀ acc,
  noc_loop acc (PStr <$> entries) = Ok (acc ++ noc_items entries).
Proof.
  unfold noc_items.
  induction entries as [|noc entries IH]; intros acc; simpl.
  - by rewrite app_nil_r.
  - rewrite IH, <- app_assoc. reflexivity.
Qed.

Lemma markdown_content_report data q entries :
  default (PStr []) (data !! py "questionnaire") = PStr q →
  default (PList []) (data !! py "noc_codes") = PList (PStr <$> entries) →
  markdown_content repr_container data
  = Ok (report repr_container data
          (fragment_items (Str.split delimiter q)) (noc_items entries)).
Proof.
  intros Hq Hn. unfold markdown_content. rewrite Hq, Hn. simpl.
  rewrite questionnaire_loop_items, noc_loop_items.
  unfold report, field_text. simpl. rewrite <- !app_assoc. reflexivity.
Qed.

Lemma is_str_list_entries l :
  forallb is_str l = true → ∃ entries, l = PStr <$> entries.
Proof.
  induction l as [|v l IH]; intros H; [by exists []|].
  simpl in H. apply andb_prop in H as [Hv Hl].
  destruct (IH Hl) as [entries ->]. destruct v; try discriminate.
  by exists (s :: entries).
Qed.

Lemma questionnaire_field (data : gmap pystr pyval) :
  from_option is_str true (data !! py "questionnaire") = true →
  ∃ q, default (PStr []) (data !! py "questionnaire") = PStr q
       ∧ (data !! py "questionnaire" = None → q = []).
Proof.
  intros H. destruct (data !! py "questionnaire") as [v|]; simpl in *.
  - destruct v; try discriminate. by exists s.
  - by exists [].
Qed.

Lemma noc_codes_field (data : gmap pystr pyval) :
  from_option is_str_list true (data !! py "noc_codes") = true →
  ∃ entries,
    default (PList []) (data !! py "noc_codes") = PList (PStr <$> entries)
    ∧ (data !! py "noc_codes" = None → entries = []).
Proof.
  intros H. destruct (data !! py "noc_codes") as [v|]; simpl in *.
  - destruct v; try discriminate.
    destruct (is_str_list_entries _ H) as [entries ->]. by exists entries.
  - by exists [].
Qed.

Lemma convert_of_markdown_content data blocks :
  markdown_content repr_container data = Ok blocks →
  convert_dict_to_markdown repr_container data = Ok (Str.join nl blocks).
Proof. intros H. unfold convert_dict_to_markdown. by rewrite H. Qed.

(** C2: for every dictionary of the data model, whatever keys it lacks,
    the formatter returns a report, and the report is the title followed
    by the five section headings in their fixed order (Questionnaire, Job
    Roles, NOC Codes, CRS Score, Roadmap), with only list items between
    the first and second and between the third and fourth; a field that
    is absent contributes its empty default. *)
Theorem convert_emits_five_sections (data : gmap pystr pyval) :
  roadmap_result data = true →
  ∃ q_items n_items,
    markdown_content repr_container data
    = Ok ([title; heading1] ++ q_items
          ++ [heading2; field_text repr_container data "job_roles" ++ nl;
              heading3] ++ n_items
          ++ [heading4; field_text repr_container data "crs_score" ++ nl;
              heading5; field_text repr_container data "roadmap" ++ nl])
    ∧ convert_dict_to_markdown repr_container data
      = Ok (Str.join nl (report repr_container data q_items n_items))
    ∧ Forall (λ block, ∃ s, block = list_item s) q_items
    ∧ Forall (λ block, ∃ s, block = list_item s) n_items
    ∧ (data !! py "questionnaire" = None → q_items = [])
    ∧ (data !! py "job_roles" = None
       → field_text repr_container data "job_roles" = [])
    ∧ (data !! py "noc_codes" = None → n_items = [])
    ∧ (data !! py "crs_score" = None
       → field_text repr_container data "crs_score" = [])
    ∧ (data !! py "roadmap" = None
       → field_text repr_container data "roadmap" = []).
Proof.
  intros H. apply andb_prop in H as [Hq Hn].
  destruct (questionnaire_field data Hq) as (q & Hq' & Hq0).
  destruct (noc_codes_field data Hn) as (entries & Hn' & Hn0).
  pose proof (markdown_content_report data q entries Hq' Hn') as Hm.
  exists (fragment_items (Str.split delimiter q)), (noc_items entries).
  split; [exact Hm|]. split; [by apply convert_of_markdown_content|].
  split; [|split].
  - unfold fragment_items. apply Forall_fmap, Forall_true. intros f. by exists f.
  - unfold noc_items. apply Forall_fmap, Forall_true. intros f.
    by exists (Str.strip f).
  - repeat split.
    + intros Hnone. by rewrite (Hq0 Hnone).
    + intros Hnone. unfold field_text. by rewrite Hnone.
    + intros Hnone. by rewrite (Hn0 Hnone).
    + intros Hnone. unfold field_text. by rewrite Hnone.
    + intros Hnone. unfold field_text. by rewrite Hnone.
Qed.

Lemma join_app sep l1 l2 :
  l1 ≠ [] → l2 ≠ [] →
  Str.join sep (l1 ++ l2) = Str.join sep l1 ++ sep ++ Str.join sep l2.
Proof.
  intros H1 H2. induction l1 as [|x l1 IH]; [done|].
  destruct l1 as [|y l1].
  - destruct l2; [done|reflexivity].
  - change (Str.join sep ((x :: y :: l1) ++ l2))
      with (x ++ sep ++ Str.join sep ((y :: l1) ++ l2)).
    rewrite IH by discriminate.
    change (Str.join sep (x :: y :: l1)) with (x ++ sep ++ Str.join sep (y :: l1)).
    by rewrite <- !app_assoc.
Qed.

(** C7: when [noc_codes] is the empty sequence, the report has the NOC
    Codes heading and no list item in that section: the heading of the
    fourth section is the next block, and in the text follows it after
    the joining newline. *)
Theorem empty_noc_codes_section (data : gmap pystr pyval) :
  from_option is_str true (data !! py "questionnaire") = true →
  data !! py "noc_codes" = Some (PList []) →
  ∃ q_items,
    markdown_content repr_container data
    = Ok ([title; heading1] ++ q_items
          ++ [heading2; field_text repr_container data "job_roles" ++ nl;
              heading3;
              heading4; field_text repr_container data "crs_score" ++ nl;
              heading5; field_text repr_container data "roadmap" ++ nl])
    ∧ ∃ before after,
        convert_dict_to_markdown repr_container data
        = Ok (before ++ heading3 ++ nl ++ heading4 ++ after).
Proof.
  intros Hq Hn.
  destruct (questionnaire_field data Hq) as (q & Hq' & _).
  assert (default (PList []) (data !! py "noc_codes") = PList (PStr <$> []))
    as Hn' by by rewrite Hn.
  pose proof (markdown_content_report data q [] Hq' Hn') as Hm.
  exists (fragment_items (Str.split delimiter q)).
  split; [exact Hm|].
  rewrite (convert_of_markdown_content _ _ Hm).
  set (job := field_text repr_container data "job_roles" ++ nl).
  set (rest := [field_text repr_container data "crs_score" ++ nl; heading5;
                field_text repr_container data "roadmap" ++ nl]).
  set (items := fragment_items (Str.split delimiter q)).
  exists (Str.join nl ([title; heading1] ++ items ++ [heading2; job]) ++ nl),
    (nl ++ Str.join nl rest).
  f_equal.
  assert (report repr_container data items (noc_items [])
          = (([title; heading1] ++ items ++ [heading2; job]) ++ [heading3])
            ++ heading4 :: rest) as ->.
  { unfold report. simpl. rewrite <- !app_assoc. reflexivity. }
  rewrite join_app; [|by destruct items|discriminate].
  rewrite join_app; [|discriminate..].
  change (Str.join nl (heading4 :: rest)) with (heading4 ++ nl ++ Str.join nl rest).
  change (Str.join nl [heading3]) with heading3.
  by rewrite <- !app_assoc.
Qed.

(** *** Splitting at the delimiter *)

Lemma contains_cons sep c s :
  contains sep (c :: s) = false →
  Str.startswith sep (c :: s) = false ∧ contains sep s = false.
Proof. simpl. intros H. by apply orb_false_elim in H. Qed.

Lemma startswith_delimiter_app c f rest :
  Str.startswith delimiter (c :: f) = false →
  Str.startswith delimiter (c :: f ++ delimiter ++ rest) = false.
Proof.
  destruct f as [|d f]; simpl; auto.
Qed.

Lemma split_at_fragment f : ∀ cur rest,
  contains delimiter f = false →
  Str.split_at delimiter cur 0 (f ++ delimiter ++ rest)
  = (cur ++ f) :: Str.split_at delimiter [] 0 rest.
Proof.
  induction f as [|c f IH]; intros cur rest Hf.
  - simpl. by rewrite app_nil_r.
  - apply contains_cons in Hf as [Hc Hf].
    change (Str.split_at delimiter cur 0 ((c :: f) ++ delimiter ++ rest))
      with (if Str.startswith delimiter (c :: f ++ delimiter ++ rest)
            then cur :: Str.split_at delimiter [] (length delimiter - 1)
                          (f ++ delimiter ++ rest)
            else Str.split_at delimiter (cur ++ [c]) 0 (f ++ delimiter ++ rest)).
    rewrite startswith_delimiter_app by assumption.
    rewrite IH by assumption. by rewrite <- app_assoc.
Qed.

Lemma split_at_last f : ∀ cur,
  contains delimiter f = false →
  Str.split_at delimiter cur 0 f = [cur ++ f].
Proof.
  induction f as [|c f IH]; intros cur Hf.
  - simpl. by rewrite app_nil_r.
  - apply contains_cons in Hf as [Hc Hf].
    change (Str.split_at delimiter cur 0 (c :: f))
      with (if Str.startswith delimiter (c :: f)
            then cur :: Str.split_at delimiter [] (length delimiter - 1) f
            else Str.split_at delimiter (cur ++ [c]) 0 f).
    rewrite Hc, IH by assumption. by rewrite <- app_assoc.
Qed.

Lemma split_three_fragments f1 f2 f3 :
  contains delimiter f1 = false →
  contains delimiter f2 = false →
  contains delimiter f3 = false →
  Str.split delimiter (f1 ++ delimiter ++ f2 ++ delimiter ++ f3) = [f1; f2; f3].
Proof.
  intros H1 H2 H3. unfold Str.split.
  rewrite split_at_fragment, split_at_fragment, split_at_last by assumption.
  reflexivity.
Qed.

(** C8: a questionnaire of exactly three fragments separated by the
    delimiter, each of them non-empty once trimmed, gives exactly three
    list items in the Questionnaire section, each the trimmed fragment,
    in the order of the fragments. *)
Theorem three_fragments_three_items (data : gmap pystr pyval) (f1 f2 f3 : pystr) :
  data !! py "questionnaire"
  = Some (PStr (f1 ++ delimiter ++ f2 ++ delimiter ++ f3)) →
  contains delimiter f1 = false →
  contains delimiter f2 = false →
  contains delimiter f3 = false →
  Str.strip f1 ≠ [] → Str.strip f2 ≠ [] → Str.strip f3 ≠ [] →
  from_option is_str_list true (data !! py "noc_codes") = true →
  Str.split delimiter (f1 ++ delimiter ++ f2 ++ delimiter ++ f3) = [f1; f2; f3]
  ∧ ∃ n_items,
      markdown_content repr_container data
      = Ok ([title; heading1;
             list_item (Str.strip f1);
             list_item (Str.strip f2);
             list_item (Str.strip f3);
             heading2; field_text repr_container data "job_roles" ++ nl;
             heading3] ++ n_items
            ++ [heading4; field_text repr_container data "crs_score" ++ nl;
                heading5; field_text repr_container data "roadmap" ++ nl])
      ∧ convert_dict_to_markdown repr_container data
        = Ok (Str.join nl
                (report repr_container data
                   [list_item (Str.strip f1);
                    list_item (Str.strip f2);
                    list_item (Str.strip f3)] n_items)).
Proof.
  intros Hq H1 H2 H3 Hs1 Hs2 Hs3 Hn.
  pose proof (split_three_fragments f1 f2 f3 H1 H2 H3) as Hsplit.
  split; [exact Hsplit|].
  destruct (noc_codes_field data Hn) as (entries & Hn' & _).
  assert (default (PStr []) (data !! py "questionnaire")
          = PStr (f1 ++ delimiter ++ f2 ++ delimiter ++ f3)) as Hq'
    by by rewrite Hq.
  pose proof (markdown_content_report data _ entries Hq' Hn') as Hm.
  rewrite Hsplit in Hm.
  assert (fragment_items [f1; f2; f3]
          = [list_item (Str.strip f1); list_item (Str.strip f2);
             list_item (Str.strip f3)]) as Hitems.
  { unfold fragment_items. simpl.
    rewrite !filter_cons_True, filter_nil by assumption. reflexivity. }
  rewrite Hitems in Hm. exists (noc_items entries).
  split; [exact Hm|]. by apply convert_of_markdown_content.
Qed.

(** *** Blank fragments and blank entries *)

Lemma lstrip_nil_iff s : Str.lstrip s = [] ↔ blank s = true.
Proof.
  unfold blank. induction s as [|c s IH]; [done|].
  simpl. destruct (Str.isspace c); [exact IH|done].
Qed.

Lemma lstrip_head s n r : Str.lstrip s = n :: r → Str.isspace n = false.
Proof.
  induction s as [|c s IH]; [done|].
  simpl. destruct (Str.isspace c) eqn:Hc; [exact IH|].
  intros [= <- _]. exact Hc.
Qed.

Lemma strip_nil_iff s : Str.strip s = [] ↔ blank s = true.
Proof.
  rewrite <- lstrip_nil_iff. unfold Str.strip.
  destruct (Str.lstrip s) as [|n r] eqn:Hl; [done|].
  split; [|done]. intros H. exfalso.
  apply lstrip_head in Hl. revert H.
  change (n :: r) with ([n] ++ r). rewrite rstrip_app.
  rewrite (rstrip_word [n]) by by repeat constructor.
  by destruct (Str.rstrip r).
Qed.

Lemma fragment_items_blank fragments :
  fragment_items fragments
  = list_item <$> (Str.strip <$> filter (λ f, blank f = false) fragments).
Proof.
  unfold fragment_items. f_equal.
  induction fragments as [|f fragments IH]; [done|].
  rewrite fmap_cons. destruct (blank f) eqn:Hb.
  - rewrite filter_cons_False by (intros H; apply H; by apply strip_nil_iff).
    by rewrite filter_cons_False by by rewrite Hb.
  - rewrite filter_cons_True
      by (intros H; apply strip_nil_iff in H; congruence).
    rewrite (filter_cons_True _ f) by assumption.
    by rewrite fmap_cons, IH.
Qed.

(** C10: the formatter filters the fragments of the questionnaire and
    not the NOC codes: a fragment that is empty or whitespace only gives
    no list item, while every entry of [noc_codes] gives one, which for
    an entry that is empty or whitespace only is the empty item. *)
Theorem fragments_filtered_entries_kept
    (data : gmap pystr pyval) (q : pystr) (entries : list pystr) :
  data !! py "questionnaire" = Some (PStr q) →
  data !! py "noc_codes" = Some (PList (PStr <$> entries)) →
  let q_items :=
    list_item
      <$> (Str.strip
             <$> filter (λ f, blank f = false) (Str.split delimiter q)) in
  let n_items := (λ noc, list_item (Str.strip noc)) <$> entries in
  markdown_content repr_container data
  = Ok (report repr_container data q_items n_items)
  ∧ length n_items = length entries
  ∧ ∀ i noc, entries !! i = Some noc →
      n_items !! i = Some (list_item (Str.strip noc))
      ∧ (blank noc = true → n_items !! i = Some (py "- " ++ nl)).
Proof.
  intros Hq Hn q_items n_items. subst q_items n_items.
  rewrite <- fragment_items_blank. split; [|split].
  - apply markdown_content_report; [by rewrite Hq|by rewrite Hn].
  - apply length_fmap.
  - intros i noc Hi. rewrite list_lookup_fmap, Hi. split; [reflexivity|].
    intros Hb. apply strip_nil_iff in Hb. simpl. by rewrite Hb.
Qed.

End FormatterProperties.

(** ** Text extraction and the roadmap client *)

Section ClientProperties.

Variable env : world.

(** The local extraction never raises. *)
Lemma fallback_returns pdf_file log :
  ∃ text log', fallback_extract_text env pdf_file log = (Ok text, log').
Proof.
  unfold fallback_extract_text, ui_try, ui_bind, ui_lift, ui_ret, st_error.
  destruct (pdf_reader env pdf_file) as [pages|e]; [|by eauto].
  destruct (concat_pages [] pages) as [text|e]; by eauto.
Qed.

Lemma fallback_parsed pdf_file pages text log :
  pdf_reader env pdf_file = Ok pages →
  concat_pages [] pages = Ok text →
  fallback_extract_text env pdf_file log = (Ok (normalize_fallback text), log).
Proof.
  intros Hr Hp.
  unfold fallback_extract_text, ui_try, ui_bind, ui_lift, ui_ret.
  by rewrite Hr, Hp.
Qed.

Lemma fallback_parse_error_eq pdf_file e log :
  local_text env pdf_file = Raise e →
  fallback_extract_text env pdf_file log
  = (Ok [], log ++ [Error (py "Error in text extraction: " ++ exn_str e)]).
Proof.
  unfold local_text. intros H.
  unfold fallback_extract_text, ui_try, ui_bind, ui_lift, ui_ret, st_error.
  destruct (pdf_reader env pdf_file) as [pages|e']; simpl in H.
  - by rewrite H.
  - by injection H as ->.
Qed.

(** C5: when reading the document locally raises, be it the reader or
    the extraction of one of the pages, [fallback_extract_text] shows an
    error with the message of the exception and returns the empty
    string; nothing is raised to the caller. *)
Theorem fallback_parse_error (pdf_file : UploadedFile) (e : exn)
    (log : list ui_event) :
  local_text env pdf_file = Raise e →
  fallback_extract_text env pdf_file log
  = (Ok [], log ++ [Error (py "Error in text extraction: " ++ exn_str e)]).
Proof. apply fallback_parse_error_eq. Qed.

(** C3: the outcomes of [call_visa_roadmap_api] by the status of the
    answer: 200 returns the decoded body and shows nothing; 404 shows the
    "Data Not Found" error and returns [None]; any other status shows the
    error with the status code and returns [None]; an exception of the
    request shows its message as an error and returns [None]. *)
Theorem roadmap_status_outcomes (text : pystr) (log : list ui_event) :
  let request := roadmap_request text in
  (∀ resp parsed,
      post env request = Ok resp →
      status_code resp = 200%Z →
      json resp = Ok parsed →
      call_visa_roadmap_api env text log = (Ok parsed, log))
  ∧ (∀ resp,
      post env request = Ok resp →
      status_code resp = 404%Z →
      call_visa_roadmap_api env text log
      = (Ok PNone, log ++ [Error (py "API Error: Data Not Found (404)")]))
  ∧ (∀ resp,
      post env request = Ok resp →
      status_code resp ≠ 200%Z →
      status_code resp ≠ 404%Z →
      call_visa_roadmap_api env text log
      = (Ok PNone,
         log ++ [Error (py "API Error: " ++ str_int (status_code resp))]))
  ∧ (∀ e,
      post env request = Raise e →
      call_visa_roadmap_api env text log
      = (Ok PNone, log ++ [Error (py "API Error: " ++ exn_str e)])).
Proof.
  intros request. subst request.
  unfold roadmap_request.
  unfold call_visa_roadmap_api, ui_try, ui_bind, ui_lift, ui_ret, st_error.
  repeat split.
  - intros resp parsed Hp Hs Hj. by rewrite Hp, Hs, Hj.
  - intros resp Hp Hs. by rewrite Hp, Hs.
  - intros resp Hp H200 H404.
    apply Z.eqb_neq in H200, H404. by rewrite Hp, H200, H404.
  - intros e Hp. by rewrite Hp.
Qed.

(** A body of status 200 that cannot be decoded is an exception like
    that of the request. *)
Lemma roadmap_undecodable text log resp e :
  post env (roadmap_request text) = Ok resp →
  status_code resp = 200%Z →
  json resp = Raise e →
  call_visa_roadmap_api env text log
  = (Ok PNone, log ++ [Error (py "API Error: " ++ exn_str e)]).
Proof.
  unfold roadmap_request. intros Hp Hs Hj.
  unfold call_visa_roadmap_api, ui_try, ui_bind, ui_lift, ui_ret, st_error.
  by rewrite Hp, Hs, Hj.
Qed.

Lemma extract_without_text env' pdf_file key resp items log :
  secrets env' (py "RAPIDAPI_KEY") = Ok key →
  post env' (ocr_request key pdf_file) = Ok resp →
  status_code resp = 200%Z →
  json resp = Ok (PDict items) →
  dict_lookup items (py "text") = None →
  extract_text_from_pdf env' pdf_file log = (Ok [], log).
Proof.
  intros Hk Hp Hs Hj Ht.
  unfold extract_text_from_pdf, ui_try, ui_bind, ui_lift, ui_ret.
  unfold ocr_request in Hp. rewrite Hk. cbv beta iota zeta. rewrite Hp, Hs. cbv beta iota.
  rewrite Hj. cbv beta iota. unfold py_get. rewrite Ht. reflexivity.
Qed.

(** C9: when the OCR service answers 200 with a JSON object that has no
    ['text'], [extract_text_from_pdf] returns the empty string, the
    normalised default of the field, and shows nothing; the local
    extraction is not run: the outcome is the same whatever the local
    reader would do, also when it would raise and so show an error. *)
Theorem extract_missing_text (pdf_file : UploadedFile) (key : pystr)
    (resp : response) (items : list (pystr * pyval)) (log : list ui_event) :
  secrets env (py "RAPIDAPI_KEY") = Ok key →
  post env (ocr_request key pdf_file) = Ok resp →
  status_code resp = 200%Z →
  json resp = Ok (PDict items) →
  dict_lookup items (py "text") = None →
  extract_text_from_pdf env pdf_file log = (Ok (normalize []), log)
  ∧ normalize [] = []
  ∧ ∀ reader,
      extract_text_from_pdf (with_reader env reader) pdf_file log = (Ok [], log).
Proof.
  intros Hk Hp Hs Hj Ht. split; [|split; [reflexivity|]].
  - by apply extract_without_text with key resp items.
  - intros reader. by apply extract_without_text with key resp items.
Qed.

(** The fallback of [extract_text_from_pdf]: a status other than 200
    hands over to the local extraction, and shows no warning. *)
Lemma extract_status_fallback pdf_file key resp log :
  secrets env (py "RAPIDAPI_KEY") = Ok key →
  post env (ocr_request key pdf_file) = Ok resp →
  status_code resp ≠ 200%Z →
  extract_text_from_pdf env pdf_file log = fallback_extract_text env pdf_file log.
Proof.
  intros Hk Hp Hs. apply Z.eqb_neq in Hs.
  unfold extract_text_from_pdf, ui_try, ui_bind, ui_lift, ui_ret.
  unfold ocr_request in Hp. rewrite Hk. cbv beta iota zeta. rewrite Hp, Hs.
  destruct (fallback_returns pdf_file log) as (t & log' & ->). reflexivity.
Qed.

(** An exception of the request shows the warning and hands over to the
    local extraction. *)
Lemma extract_exception_fallback pdf_file key e log :
  secrets env (py "RAPIDAPI_KEY") = Ok key →
  post env (ocr_request key pdf_file) = Raise e →
  extract_text_from_pdf env pdf_file log
  = fallback_extract_text env pdf_file
      (log ++ [Warning (py "Using fallback PDF extraction method")]).
Proof.
  intros Hk Hp.
  unfold extract_text_from_pdf, ui_try, ui_bind, ui_lift, ui_ret, st_warning.
  unfold ocr_request in Hp. rewrite Hk. cbv beta iota zeta. by rewrite Hp.
Qed.

End ClientProperties.

(** ** The program on the sample inputs *)

Example convert_empty_dict :
  convert_dict_to_markdown sample_repr ∅
  = Ok (Str.join nl
          [title; heading1; heading2; nl; heading3; heading4; nl; heading5; nl]).
Proof. vm_compute. reflexivity. Qed.

Example convert_sample_result :
  markdown_content sample_repr sample_result
  = Ok [title; heading1;
        py "- Age: 30" ++ nl; py "- Education: MSc" ++ nl;
        py "- Language: CLB 9" ++ nl;
        heading2; py "Software developer" ++ nl;
        heading3; py "- 21231" ++ nl; py "- " ++ nl;
        heading4; nl;
        heading5; py "Apply through Express Entry." ++ nl].
Proof. vm_compute. reflexivity. Qed.

(** A questionnaire that is not a string is an error of the formatter. *)
Example convert_questionnaire_none :
  convert_dict_to_markdown sample_repr {[ py "questionnaire" := PNone ]}
  = Raise (attribute_error PNone "split").
Proof. vm_compute. reflexivity. Qed.

(** C4: a run in which the OCR service answers 503.  The text comes from
    the local extraction and is normalised, but no warning is shown, where
    the specification has a warning whenever the fallback is used (and the
    [except] branch of the same function shows one). *)
Theorem extract_status_fallback_silent :
  extract_text_from_pdf ocr_unavailable sample_file [] = (Ok (py "A B C"), [])
  ∧ fallback_extract_text ocr_unavailable sample_file [] = (Ok (py "A B C"), []).
Proof. split; vm_compute; reflexivity. Qed.

(** Extraction degrades gracefully: after a status other than 200 or an
    exception of the request, the result is that of the local extraction,
    which is a normalised string. *)
Lemma extract_fallback_normalized env pdf_file key log :
  secrets env (py "RAPIDAPI_KEY") = Ok key →
  (∃ resp, post env (ocr_request key pdf_file) = Ok resp
           ∧ status_code resp ≠ 200%Z)
  ∨ (∃ e, post env (ocr_request key pdf_file) = Raise e) →
  ∃ text log',
    extract_text_from_pdf env pdf_file log = (Ok text, log')
    ∧ normalize text = text.
Proof.
  intros Hk Hcase.
  assert (∀ log0, ∃ text log',
             fallback_extract_text env pdf_file log0 = (Ok text, log')
             ∧ normalize text = text) as Hf.
  { intros log0. destruct (local_text env pdf_file) as [t|e] eqn:Hl.
    - unfold local_text in Hl.
      destruct (pdf_reader env pdf_file) as [pages|] eqn:Hr; [|done].
      exists (normalize_fallback t), log0. split.
      + by apply fallback_parsed with pages.
      + rewrite normalize_fallback_eq. apply normalize_normalize.
    - exists [], (log0 ++ [Error (py "Error in text extraction: " ++ exn_str e)]).
      split; [by apply fallback_parse_error_eq|reflexivity]. }
  destruct Hcase as [(resp & Hp & Hs)|(e & Hp)].
  - rewrite (extract_status_fallback env pdf_file key resp log) by assumption.
    apply Hf.
  - rewrite (extract_exception_fallback env pdf_file key e log) by assumption.
    apply Hf.
Qed.

(** ** The theorems at the sample inputs *)

Lemma convert_emits_five_sections_witness :
  roadmap_result sample_result = true
  ∧ ∃ q_items n_items,
      markdown_content sample_repr sample_result
      = Ok ([title; heading1] ++ q_items
            ++ [heading2; field_text sample_repr sample_result "job_roles" ++ nl;
                heading3] ++ n_items
            ++ [heading4; field_text sample_repr sample_result "crs_score" ++ nl;
                heading5; field_text sample_repr sample_result "roadmap" ++ nl])
      ∧ convert_dict_to_markdown sample_repr sample_result
        = Ok (Str.join nl (report sample_repr sample_result q_items n_items))
      ∧ Forall (λ block, ∃ s, block = list_item s) q_items
      ∧ Forall (λ block, ∃ s, block = list_item s) n_items
      ∧ (sample_result !! py "questionnaire" = None → q_items = [])
      ∧ (sample_result !! py "job_roles" = None
         → field_text sample_repr sample_result "job_roles" = [])
      ∧ (sample_result !! py "noc_codes" = None → n_items = [])
      ∧ (sample_result !! py "crs_score" = None
         → field_text sample_repr sample_result "crs_score" = [])
      ∧ (sample_result !! py "roadmap" = None
         → field_text sample_repr sample_result "roadmap" = []).
Proof.
  assert (roadmap_result sample_result = true) as H by (vm_compute; reflexivity).
  split; [exact H|].
  exact (convert_emits_five_sections sample_repr sample_result H).
Defined.

Lemma roadmap_status_outcomes_witness :
  post ocr_unavailable (roadmap_request (py "A B C"))
  = Ok {| status_code := 404; json := not_json |}
  ∧ call_visa_roadmap_api ocr_unavailable (py "A B C") []
    = (Ok PNone, [Error (py "API Error: Data Not Found (404)")]).
Proof.
  assert (post ocr_unavailable (roadmap_request (py "A B C"))
          = Ok {| status_code := 404; json := not_json |}) as H
    by (vm_compute; reflexivity).
  split; [exact H|].
  exact (proj1 (proj2 (roadmap_status_outcomes ocr_unavailable (py "A B C") []))
           _ H eq_refl).
Defined.

Lemma fallback_parse_error_witness :
  local_text unreadable sample_file
  = Raise (Exn "PdfReadError" (py "EOF marker not found"))
  ∧ fallback_extract_text unreadable sample_file []
    = (Ok [], [] ++ [Error (py "Error in text extraction: "
                            ++ exn_str (Exn "PdfReadError"
                                          (py "EOF marker not found")))]).
Proof.
  assert (local_text unreadable sample_file
          = Raise (Exn "PdfReadError" (py "EOF marker not found"))) as H
    by reflexivity.
  split; [exact H|].
  exact (fallback_parse_error unreadable sample_file _ [] H).
Defined.

Lemma empty_noc_codes_section_witness :
  from_option is_str true (sample_result_no_noc !! py "questionnaire") = true
  ∧ sample_result_no_noc !! py "noc_codes" = Some (PList [])
  ∧ ∃ q_items,
      markdown_content sample_repr sample_result_no_noc
      = Ok ([title; heading1] ++ q_items
            ++ [heading2;
                field_text sample_repr sample_result_no_noc "job_roles" ++ nl;
                heading3;
                heading4;
                field_text sample_repr sample_result_no_noc "crs_score" ++ nl;
                heading5;
                field_text sample_repr sample_result_no_noc "roadmap" ++ nl])
      ∧ ∃ before after,
          convert_dict_to_markdown sample_repr sample_result_no_noc
          = Ok (before ++ heading3 ++ nl ++ heading4 ++ after).
Proof.
  assert (from_option is_str true (sample_result_no_noc !! py "questionnaire")
          = true) as Hq by (vm_compute; reflexivity).
  assert (sample_result_no_noc !! py "noc_codes" = Some (PList [])) as Hn
    by (vm_compute; reflexivity).
  split; [exact Hq|]. split; [exact Hn|].
  exact (empty_noc_codes_section sample_repr sample_result_no_noc Hq Hn).
Defined.

Lemma three_fragments_three_items_witness :
  sample_result !! py "questionnaire"
  = Some (PStr (fragment1 ++ delimiter ++ fragment2 ++ delimiter ++ fragment3))
  ∧ contains delimiter fragment1 = false
  ∧ contains delimiter fragment2 = false
  ∧ contains delimiter fragment3 = false
  ∧ Str.strip fragment1 ≠ [] ∧ Str.strip fragment2 ≠ [] ∧ Str.strip fragment3 ≠ []
  ∧ from_option is_str_list true (sample_result !! py "noc_codes") = true
  ∧ Str.split delimiter
      (fragment1 ++ delimiter ++ fragment2 ++ delimiter ++ fragment3)
    = [fragment1; fragment2; fragment3]
  ∧ ∃ n_items,
      markdown_content sample_repr sample_result
      = Ok ([title; heading1;
             list_item (Str.strip fragment1);
             list_item (Str.strip fragment2);
             list_item (Str.strip fragment3);
             heading2; field_text sample_repr sample_result "job_roles" ++ nl;
             heading3] ++ n_items
            ++ [heading4; field_text sample_repr sample_result "crs_score" ++ nl;
                heading5; field_text sample_repr sample_result "roadmap" ++ nl])
      ∧ convert_dict_to_markdown sample_repr sample_result
        = Ok (Str.join nl
                (report sample_repr sample_result
                   [list_item (Str.strip fragment1);
                    list_item (Str.strip fragment2);
                    list_item (Str.strip fragment3)] n_items)).
Proof.
  assert (sample_result !! py "questionnaire"
          = Some (PStr (fragment1 ++ delimiter ++ fragment2 ++ delimiter
                        ++ fragment3))) as Hq by (vm_compute; reflexivity).
  assert (contains delimiter fragment1 = false) as H1 by reflexivity.
  assert (contains delimiter fragment2 = false) as H2 by reflexivity.
  assert (contains delimiter fragment3 = false) as H3 by reflexivity.
  assert (Str.strip fragment1 ≠ []) as Hs1 by (vm_compute; discriminate).
  assert (Str.strip fragment2 ≠ []) as Hs2 by (vm_compute; discriminate).
  assert (Str.strip fragment3 ≠ []) as Hs3 by (vm_compute; discriminate).
  assert (from_option is_str_list true (sample_result !! py "noc_codes") = true)
    as Hn by (vm_compute; reflexivity).
  repeat (split; [assumption|]).
  exact (three_fragments_three_items sample_repr sample_result
           fragment1 fragment2 fragment3 Hq H1 H2 H3 Hs1 Hs2 Hs3 Hn).
Defined.

Lemma fragments_filtered_entries_kept_witness :
  sample_result !! py "questionnaire" = Some (PStr sample_questionnaire)
  ∧ sample_result !! py "noc_codes" = Some (PList (PStr <$> sample_noc_codes))
  ∧ let q_items :=
      list_item
        <$> (Str.strip
               <$> filter (λ f, blank f = false)
                     (Str.split delimiter sample_questionnaire)) in
    let n_items := (λ noc, list_item (Str.strip noc)) <$> sample_noc_codes in
    markdown_content sample_repr sample_result
    = Ok (report sample_repr sample_result q_items n_items)
    ∧ length n_items = length sample_noc_codes
    ∧ ∀ i noc, sample_noc_codes !! i = Some noc →
        n_items !! i = Some (list_item (Str.strip noc))
        ∧ (blank noc = true → n_items !! i = Some (py "- " ++ nl)).
Proof.
  assert (sample_result !! py "questionnaire" = Some (PStr sample_questionnaire))
    as Hq by (vm_compute; reflexivity).
  assert (sample_result !! py "noc_codes"
          = Some (PList (PStr <$> sample_noc_codes)))
    as Hn by (vm_compute; reflexivity).
  split; [exact Hq|]. split; [exact Hn|].
  exact (fragments_filtered_entries_kept sample_repr sample_result
           sample_questionnaire sample_noc_codes Hq Hn).
Defined.

Lemma extract_missing_text_witness :
  secrets ocr_without_text (py "RAPIDAPI_KEY") = Ok (py "secret")
  ∧ post ocr_without_text (ocr_request (py "secret") sample_file)
    = Ok {| status_code := 200;
            json := Ok (PDict [(py "status", PStr (py "ok"))]) |}
  ∧ dict_lookup [(py "status", PStr (py "ok"))] (py "text") = None
  ∧ extract_text_from_pdf ocr_without_text sample_file [] = (Ok (normalize []), [])
  ∧ normalize [] = []
  ∧ ∀ reader,
      extract_text_from_pdf (with_reader ocr_without_text reader) sample_file []
      = (Ok [], []).
Proof.
  assert (secrets ocr_without_text (py "RAPIDAPI_KEY") = Ok (py "secret")) as Hk
    by (vm_compute; reflexivity).
  assert (post ocr_without_text (ocr_request (py "secret") sample_file)
          = Ok {| status_code := 200;
                  json := Ok (PDict [(py "status", PStr (py "ok"))]) |}) as Hp
    by (vm_compute; reflexivity).
  assert (dict_lookup [(py "status", PStr (py "ok"))] (py "text") = None) as Ht
    by (vm_compute; reflexivity).
  split; [exact Hk|]. split; [exact Hp|]. split; [exact Ht|].
  exact (extract_missing_text ocr_without_text sample_file (py "secret") _
           [(py "status", PStr (py "ok"))] [] Hk Hp eq_refl eq_refl Ht).
Defined.

(** The local extraction would have shown an error here, had it run. *)
Example ocr_without_text_local :
  fallback_extract_text ocr_without_text sample_file []
  = (Ok [], [Error (py "Error in text extraction: EOF marker not found")]).
Proof. vm_compute. reflexivity. Qed.

(** An exception of the request shows the warning. *)
Example extract_exception_warns :
  extract_text_from_pdf
    (world_of not_a_response not_a_response (Ok [Ok (py "A B  C")]))
    sample_file []
  = (Ok (py "A B C"), [Warning (py "Using fallback PDF extraction method")]).
Proof. vm_compute. reflexivity. Qed.

Example split_overlapping :
  Str.split delimiter [226; 226; 8212] = [[226]; []].
Proof. reflexivity. Qed.

Example str_int_examples :
  str_int 404 = py "404" ∧ str_int 0 = py "0" ∧ str_int (-5) = py "-5".
Proof. repeat split; reflexivity. Qed.

Example roadmap_500 :
  call_visa_roadmap_api
    (world_of not_a_response (Ok {| status_code := 500; json := not_json |})
       (Ok []))
    (py "A B C") []
  = (Ok PNone, [Error (py "API Error: 500")]).
Proof. vm_compute. reflexivity. Qed.

(** * Further properties *)

(** ** Text extraction *)

Section ExtractionProperties.

Variable env : world.

Lemma concat_pages_texts texts : ∀ text,
  concat_pages text (Ok <$> texts) = Ok (text ++ concat texts).
Proof.
  induction texts as [|t texts IH]; intros text; simpl.
  - by rewrite app_nil_r.
  - by rewrite IH, <- app_assoc.
Qed.

(** X1: a missing key is raised to the caller of [extract_text_from_pdf],
    with the exception of the lookup: the headers are built before the
    [try], so nothing is shown and neither the service nor the local
    reader is used. *)
Theorem extract_missing_key (pdf_file : UploadedFile) (e : exn)
    (log : list ui_event) :
  secrets env (py "RAPIDAPI_KEY") = Raise e →
  extract_text_from_pdf env pdf_file log = (Raise e, log).
Proof.
  intros Hk. unfold extract_text_from_pdf, ui_bind, ui_lift. by rewrite Hk.
Qed.

Lemma extract_text_found_eq env' pdf_file key resp items s log :
  secrets env' (py "RAPIDAPI_KEY") = Ok key →
  post env' (ocr_request key pdf_file) = Ok resp →
  status_code resp = 200%Z →
  json resp = Ok (PDict items) →
  dict_lookup items (py "text") = Some (PStr s) →
  extract_text_from_pdf env' pdf_file log = (Ok (normalize s), log).
Proof.
  intros Hk Hp Hs Hj Ht.
  unfold extract_text_from_pdf, ui_try, ui_bind, ui_lift, ui_ret.
  unfold ocr_request in Hp. rewrite Hk. cbv beta iota zeta. rewrite Hp, Hs.
  cbv beta iota. rewrite Hj. cbv beta iota. unfold py_get. rewrite Ht.
  reflexivity.
Qed.

(** X2: when the OCR service answers 200 with an object whose ['text'] is
    a string, [extract_text_from_pdf] returns that string normalised and
    shows nothing, whatever the local reader would do. *)
Theorem extract_text_found (pdf_file : UploadedFile) (key : pystr)
    (resp : response) (items : list (pystr * pyval)) (s : pystr)
    (log : list ui_event) :
  secrets env (py "RAPIDAPI_KEY") = Ok key →
  post env (ocr_request key pdf_file) = Ok resp →
  status_code resp = 200%Z →
  json resp = Ok (PDict items) →
  dict_lookup items (py "text") = Some (PStr s) →
  extract_text_from_pdf env pdf_file log = (Ok (normalize s), log)
  ∧ ∀ reader,
      extract_text_from_pdf (with_reader env reader) pdf_file log
      = (Ok (normalize s), log).
Proof.
  intros Hk Hp Hs Hj Ht. split.
  - by apply extract_text_found_eq with key resp items.
  - intros reader. by apply extract_text_found_eq with key resp items.
Qed.

Lemma extract_unusable_eq pdf_file key resp log :
  secrets env (py "RAPIDAPI_KEY") = Ok key →
  post env (ocr_request key pdf_file) = Ok resp →
  status_code resp = 200%Z →
  (∃ e, json resp = Raise e)
  ∨ (∃ v, json resp = Ok v ∧ type_name v ≠ "dict")
  ∨ (∃ items v, json resp = Ok (PDict items)
                ∧ dict_lookup items (py "text") = Some v ∧ is_str v = false) →
  extract_text_from_pdf env pdf_file log
  = fallback_extract_text env pdf_file
      (log ++ [Warning (py "Using fallback PDF extraction method")]).
Proof.
  intros Hk Hp Hs Hbody.
  unfold extract_text_from_pdf, ui_try, ui_bind, ui_lift, ui_ret, st_warning.
  unfold ocr_request in Hp. rewrite Hk. cbv beta iota zeta. rewrite Hp, Hs.
  cbv beta iota.
  destruct Hbody as [(e & ->)|[(v & -> & Hv)|(items & v & -> & Ht & Hv)]].
  - reflexivity.
  - destruct v; try reflexivity. by destruct Hv.
  - cbv beta iota. unfold py_get. rewrite Ht. by destruct v.
Qed.

(** X3: a 200 answer that cannot be used is handled like an exception of
    the request: when the body is not JSON, or is JSON but not an object,
    or its ['text'] is not a string, the warning is shown and the local
    extraction runs. *)
Theorem extract_unusable_body (pdf_file : UploadedFile) (key : pystr)
    (resp : response) (log : list ui_event) :
  secrets env (py "RAPIDAPI_KEY") = Ok key →
  post env (ocr_request key pdf_file) = Ok resp →
  status_code resp = 200%Z →
  (∃ e, json resp = Raise e)
  ∨ (∃ v, json resp = Ok v ∧ type_name v ≠ "dict")
  ∨ (∃ items v, json resp = Ok (PDict items)
                ∧ dict_lookup items (py "text") = Some v ∧ is_str v = false) →
  extract_text_from_pdf env pdf_file log
  = fallback_extract_text env pdf_file
      (log ++ [Warning (py "Using fallback PDF extraction method")]).
Proof. apply extract_unusable_eq. Qed.

(** X4: when its pages all give their text, [fallback_extract_text]
    returns the texts of the pages, concatenated in their order with
    nothing between them and then normalised, and shows nothing: a word
    that ends one page and a word that starts the next become one word
    unless whitespace separates them. *)
Theorem fallback_pages_joined (pdf_file : UploadedFile) (texts : list pystr)
    (log : list ui_event) :
  pdf_reader env pdf_file = Ok (Ok <$> texts) →
  fallback_extract_text env pdf_file log = (Ok (normalize (concat texts)), log).
Proof.
  intros Hr. rewrite <- normalize_fallback_eq.
  apply fallback_parsed with (Ok <$> texts); [exact Hr|].
  apply concat_pages_texts.
Qed.

Lemma fallback_outcome pdf_file log :
  ∃ text failed,
    fallback_extract_text env pdf_file log = (Ok text, log ++ failed)
    ∧ normalize text = text
    ∧ (failed = []
       ∨ ∃ e, failed = [Error (py "Error in text extraction: " ++ exn_str e)]
              ∧ text = []).
Proof.
  destruct (local_text env pdf_file) as [t|e] eqn:Hl.
  - unfold local_text in Hl.
    destruct (pdf_reader env pdf_file) as [pages|] eqn:Hr; [|done].
    exists (normalize_fallback t), []. rewrite app_nil_r. split; [|split].
    + by apply fallback_parsed with pages.
    + rewrite normalize_fallback_eq. apply normalize_normalize.
    + by left.
  - exists [], [Error (py "Error in text extraction: " ++ exn_str e)].
    split; [by apply fallback_parse_error_eq|]. split; [reflexivity|].
    right. by exists e.
Qed.

(** X5: [fallback_extract_text] never raises; what it returns is a
    normalised string; it keeps the messages shown before and adds at most
    one, an error, and when it adds the error the string is empty. *)
Theorem fallback_never_raises (pdf_file : UploadedFile) (log : list ui_event) :
  ∃ text failed,
    fallback_extract_text env pdf_file log = (Ok text, log ++ failed)
    ∧ normalize text = text
    ∧ (failed = []
       ∨ ∃ e, failed = [Error (py "Error in text extraction: " ++ exn_str e)]
              ∧ text = []).
Proof. apply fallback_outcome. Qed.

Lemma extract_outcome pdf_file key log :
  secrets env (py "RAPIDAPI_KEY") = Ok key →
  ∃ text warned failed,
    extract_text_from_pdf env pdf_file log = (Ok text, log ++ warned ++ failed)
    ∧ normalize text = text
    ∧ (warned = []
       ∨ warned = [Warning (py "Using fallback PDF extraction method")])
    ∧ (failed = []
       ∨ ∃ e, failed = [Error (py "Error in text extraction: " ++ exn_str e)]
              ∧ text = []).
Proof.
  intros Hk.
  assert (∀ warned,
            (warned = []
             ∨ warned = [Warning (py "Using fallback PDF extraction method")]) →
            extract_text_from_pdf env pdf_file log
            = fallback_extract_text env pdf_file (log ++ warned) →
            ∃ text warned failed,
              extract_text_from_pdf env pdf_file log
              = (Ok text, log ++ warned ++ failed)
              ∧ normalize text = text
              ∧ (warned = []
                 ∨ warned = [Warning (py "Using fallback PDF extraction method")])
              ∧ (failed = []
                 ∨ ∃ e, failed
                        = [Error (py "Error in text extraction: " ++ exn_str e)]
                        ∧ text = [])) as Hfall.
  { intros warned Hw Heq.
    destruct (fallback_outcome pdf_file (log ++ warned))
      as (text & failed & Hf & Hn & Hfailed).
    exists text, warned, failed. rewrite Heq, Hf, <- app_assoc. by repeat split. }
  destruct (post env (ocr_request key pdf_file)) as [resp|e] eqn:Hp.
  - destruct (decide (status_code resp = 200%Z)) as [Hs|Hs].
    + destruct (json resp) as [v|e] eqn:Hj.
      * destruct (decide (type_name v = "dict")) as [Hd|Hd].
        -- destruct v; try discriminate.
           destruct (dict_lookup items (py "text")) as [t|] eqn:Ht.
           ++ destruct (is_str t) eqn:Hstr.
              ** destruct t; try discriminate.
                 exists (normalize s), [], []. rewrite !app_nil_r.
                 split; [by apply extract_text_found_eq with key resp items|].
                 split; [apply normalize_normalize|]. split; by left.
              ** apply (Hfall [Warning (py "Using fallback PDF extraction method")]);
                   [by right|].
                 apply extract_unusable_eq with key resp; try done.
                 right. right. by exists items, t.
           ++ exists [], [], []. rewrite !app_nil_r.
              split; [by apply extract_without_text with key resp items|].
              split; [reflexivity|]. split; by left.
        -- apply (Hfall [Warning (py "Using fallback PDF extraction method")]);
             [by right|].
           apply extract_unusable_eq with key resp; try done.
           right. left. by exists v.
      * apply (Hfall [Warning (py "Using fallback PDF extraction method")]);
          [by right|].
        apply extract_unusable_eq with key resp; try done.
        left. by exists e.
    + apply (Hfall []); [by left|]. rewrite app_nil_r.
      by apply (extract_status_fallback env pdf_file key resp log).
  - apply (Hfall [Warning (py "Using fallback PDF extraction method")]);
      [by right|].
    by apply (extract_exception_fallback env pdf_file key e log).
Qed.

(** X6: with the key configured, [extract_text_from_pdf] never raises,
    whatever the service and the local reader do; what it returns is a
    normalised string; it keeps the messages shown before and adds at most
    the warning of the fallback and then the error of the local extraction,
    and when it adds the error the string is empty. *)
Theorem extract_never_raises (pdf_file : UploadedFile) (key : pystr)
    (log : list ui_event) :
  secrets env (py "RAPIDAPI_KEY") = Ok key →
  ∃ text warned failed,
    extract_text_from_pdf env pdf_file log = (Ok text, log ++ warned ++ failed)
    ∧ normalize text = text
    ∧ (warned = []
       ∨ warned = [Warning (py "Using fallback PDF extraction method")])
    ∧ (failed = []
       ∨ ∃ e, failed = [Error (py "Error in text extraction: " ++ exn_str e)]
              ∧ text = []).
Proof. apply extract_outcome. Qed.

End ExtractionProperties.

(** ** The roadmap client *)

(** X7: [call_visa_roadmap_api] never raises and keeps the messages shown
    before.  Either the service answered 200 with a body that decodes, and
    then that body is returned and nothing is shown; or exactly one error
    is shown and [None] is returned. *)
Theorem call_never_raises (env : world) (text : pystr) (log : list ui_event) :
  (∃ resp parsed,
      post env (roadmap_request text) = Ok resp
      ∧ status_code resp = 200%Z
      ∧ json resp = Ok parsed
      ∧ call_visa_roadmap_api env text log = (Ok parsed, log))
  ∨ (∃ msg, call_visa_roadmap_api env text log
            = (Ok PNone, log ++ [Error msg])).
Proof.
  unfold call_visa_roadmap_api, ui_try, ui_bind, ui_lift, ui_ret, st_error,
    roadmap_request.
  destruct (post env _) as [resp|e] eqn:Hp; [|right; by eexists].
  destruct (decide (status_code resp = 200%Z)) as [Hs|Hs].
  - rewrite Hs. cbv beta iota. destruct (json resp) as [parsed|e] eqn:Hj.
    + left. by exists resp, parsed.
    + right. by eexists.
  - apply Z.eqb_neq in Hs. rewrite Hs.
    destruct (status_code resp =? 404)%Z; right; by eexists.
Qed.

(** X8: an answer of status 200 whose body is not JSON is reported like an
    exception of the request: the message of the decoding error is shown
    and [None] is returned. *)
Theorem call_undecodable_body (env : world) (text : pystr)
    (resp : response) (e : exn) (log : list ui_event) :
  post env (roadmap_request text) = Ok resp →
  status_code resp = 200%Z →
  json resp = Raise e →
  call_visa_roadmap_api env text log
  = (Ok PNone, log ++ [Error (py "API Error: " ++ exn_str e)]).
Proof. apply roadmap_undecodable. Qed.

(** ** Reports from values outside the data model *)

Section FormatterErrors.

Variable repr_container : pyval -> pystr.

Lemma markdown_content_iter (data : gmap pystr pyval) q entries :
  default (PStr []) (data !! py "questionnaire") = PStr q →
  py_iter (default (PList []) (data !! py "noc_codes")) = Ok (PStr <$> entries) →
  markdown_content repr_container data
  = Ok (report repr_container data
          (fragment_items (Str.split delimiter q)) (noc_items entries)).
Proof.
  intros Hq Hn. unfold markdown_content. rewrite Hq, Hn. simpl.
  rewrite questionnaire_loop_items, noc_loop_items.
  unfold report, field_text. simpl. rewrite <- !app_assoc. reflexivity.
Qed.

(** X9: a [questionnaire] that is present and not a string (a [null], a
    number, a list) makes [convert_dict_to_markdown] raise the
    [AttributeError] of [split]; the default is used only for a key that is
    absent. *)
Theorem convert_questionnaire_not_str (data : gmap pystr pyval) (v : pyval) :
  data !! py "questionnaire" = Some v →
  is_str v = false →
  convert_dict_to_markdown repr_container data
  = Raise (attribute_error v "split").
Proof.
  intros Hq Hv. unfold convert_dict_to_markdown, markdown_content.
  rewrite Hq. by destruct v.
Qed.

(** X10: a [noc_codes] that is present and cannot be iterated ([null], a
    boolean, a number) makes [convert_dict_to_markdown] raise the
    [TypeError] of the loop. *)
Theorem convert_noc_codes_not_iterable (data : gmap pystr pyval) (v : pyval) :
  from_option is_str true (data !! py "questionnaire") = true →
  data !! py "noc_codes" = Some v →
  v = PNone ∨ (∃ b, v = PBool b) ∨ (∃ z, v = PInt z) ∨ (∃ t, v = PFloat t) →
  convert_dict_to_markdown repr_container data = Raise (not_iterable v).
Proof.
  intros Hq Hn Hv. destruct (questionnaire_field data Hq) as (q & Hq' & _).
  unfold convert_dict_to_markdown, markdown_content. rewrite Hq', Hn.
  by destruct Hv as [->|[[b ->]|[[z ->]|[t ->]]]].
Qed.

Lemma noc_loop_not_str good v rest : ∀ acc,
  is_str v = false →
  noc_loop acc ((PStr <$> good) ++ v :: rest) = Raise (attribute_error v "strip").
Proof.
  induction good as [|g good IH]; intros acc Hv; simpl.
  - by destruct v.
  - by apply IH.
Qed.

(** X11: an entry of [noc_codes] that is not a string makes
    [convert_dict_to_markdown] raise the [AttributeError] of [strip], for
    the first such entry, whatever the entries after it are. *)
Theorem convert_noc_entry_not_str (data : gmap pystr pyval)
    (good : list pystr) (v : pyval) (rest : list pyval) :
  from_option is_str true (data !! py "questionnaire") = true →
  data !! py "noc_codes" = Some (PList ((PStr <$> good) ++ v :: rest)) →
  is_str v = false →
  convert_dict_to_markdown repr_container data
  = Raise (attribute_error v "strip").
Proof.
  intros Hq Hn Hv. destruct (questionnaire_field data Hq) as (q & Hq' & _).
  unfold convert_dict_to_markdown, markdown_content. rewrite Hq', Hn.
  cbn [default from_option id py_split py_iter res_bind].
  by rewrite noc_loop_not_str.
Qed.

(** X12: a [noc_codes] that is one string instead of a list of strings is
    not an error: the loop visits its characters, and the section has one
    list item for each character of the string, empty for a character that
    is whitespace. *)
Theorem convert_noc_codes_string (data : gmap pystr pyval) (s : pystr) :
  from_option is_str true (data !! py "questionnaire") = true →
  data !! py "noc_codes" = Some (PStr s) →
  ∃ q_items,
    markdown_content repr_container data
    = Ok (report repr_container data q_items
            ((λ c, list_item (if Str.isspace c then [] else [c])) <$> s)).
Proof.
  intros Hq Hn. destruct (questionnaire_field data Hq) as (q & Hq' & _).
  exists (fragment_items (Str.split delimiter q)).
  rewrite (markdown_content_iter data q ((λ c, [c]) <$> s) Hq').
  - unfold noc_items. rewrite <- list_fmap_compose. do 2 f_equal.
    apply list_fmap_ext. intros _ c _. simpl. f_equal.
    unfold Str.strip, Str.rstrip. simpl. by destruct (Str.isspace c) eqn:Hc;
      simpl; rewrite ?Hc.
  - rewrite Hn. simpl. by rewrite <- list_fmap_compose.
Qed.

(** X13: the report depends on five keys only: two dictionaries with the
    same [questionnaire], [job_roles], [noc_codes], [crs_score] and
    [roadmap] give the same result, whatever else they hold. *)
Theorem convert_reads_five_keys (data data' : gmap pystr pyval) :
  data !! py "questionnaire" = data' !! py "questionnaire" →
  data !! py "job_roles" = data' !! py "job_roles" →
  data !! py "noc_codes" = data' !! py "noc_codes" →
  data !! py "crs_score" = data' !! py "crs_score" →
  data !! py "roadmap" = data' !! py "roadmap" →
  convert_dict_to_markdown repr_container data
  = convert_dict_to_markdown repr_container data'.
Proof.
  intros Hq Hj Hn Hc Hr. unfold convert_dict_to_markdown, markdown_content.
  by rewrite Hq, Hj, Hn, Hc, Hr.
Qed.

End FormatterErrors.

(** ** What the list items hold *)

Lemma blank_Forall w : blank w = true ↔ Forall (λ c, Str.isspace c = true) w.
Proof.
  unfold blank. induction w as [|c w IH]; simpl.
  - split; [constructor|done].
  - rewrite andb_true_iff, IH, Forall_cons. done.
Qed.

Lemma blank_app w1 w2 : blank w1 = true → blank w2 = true → blank (w1 ++ w2) = true.
Proof. rewrite !blank_Forall. intros. by apply Forall_app. Qed.

Lemma lstrip_suffix s : ∃ w, s = w ++ Str.lstrip s ∧ blank w = true.
Proof.
  induction s as [|c s (w & Hs & Hw)]; [by exists []|].
  simpl. destruct (Str.isspace c) eqn:Hc.
  - exists (c :: w). split; [by rewrite Hs at 1|]. unfold blank in *. simpl.
    by rewrite Hc, Hw.
  - by exists [].
Qed.

Lemma rstrip_prefix s : ∃ w, s = Str.rstrip s ++ w ∧ blank w = true.
Proof.
  destruct (lstrip_suffix (reverse s)) as (w & Hs & Hw).
  exists (reverse w). split.
  - unfold Str.rstrip. rewrite <- reverse_app, <- Hs. by rewrite reverse_involutive.
  - apply blank_Forall. apply blank_Forall in Hw.
    rewrite Forall_forall in *. intros c Hc. apply Hw.
    by rewrite elem_of_reverse in Hc.
Qed.

(** [strip] removes whitespace from the two ends and nothing else. *)
Lemma strip_decompose s :
  ∃ w1 w2, s = w1 ++ Str.strip s ++ w2 ∧ blank w1 = true ∧ blank w2 = true.
Proof.
  destruct (lstrip_suffix s) as (w1 & Hs & Hw1).
  destruct (rstrip_prefix (Str.lstrip s)) as (w2 & Hl & Hw2).
  exists w1, w2. unfold Str.strip. by rewrite <- Hl.
Qed.

Lemma strip_trimmed s : trimmed (Str.strip s).
Proof.
  split; intros c Hc.
  - destruct (rstrip_prefix (Str.lstrip s)) as (w & Hl & _).
    unfold Str.strip in Hc.
    destruct (Str.rstrip (Str.lstrip s)) as [|d t]; [done|].
    injection Hc as ->. by apply lstrip_head in Hl.
  - unfold Str.strip, Str.rstrip in Hc. rewrite last_reverse in Hc.
    destruct (Str.lstrip (reverse (Str.lstrip s))) as [|d t] eqn:Hl; [done|].
    injection Hc as ->. by apply lstrip_head in Hl.
Qed.

Section ItemProperties.

Variable repr_container : pyval -> pystr.

(** X14: in every report of a dictionary of the data model, the text of
    each list item of the Questionnaire section is not empty and neither
    starts nor ends with whitespace, and the text of each list item of the
    NOC Codes section neither starts nor ends with whitespace, though it
    may be empty. *)
Theorem items_trimmed (data : gmap pystr pyval) :
  roadmap_result data = true →
  ∃ q_texts n_texts,
    markdown_content repr_container data
    = Ok (report repr_container data (list_item <$> q_texts)
            (list_item <$> n_texts))
    ∧ Forall (λ t, t ≠ [] ∧ trimmed t) q_texts
    ∧ Forall trimmed n_texts.
Proof.
  intros H. apply andb_prop in H as [Hq Hn].
  destruct (questionnaire_field data Hq) as (q & Hq' & _).
  destruct (noc_codes_field data Hn) as (entries & Hn' & _).
  exists (filter (λ f, f ≠ []) (Str.strip <$> Str.split delimiter q)),
    (Str.strip <$> entries).
  split; [|split].
  - rewrite (markdown_content_report repr_container data q entries Hq' Hn').
    unfold noc_items. by rewrite <- list_fmap_compose.
  - apply Forall_forall. intros t Ht.
    apply list_elem_of_filter in Ht as [Hne Ht].
    apply list_elem_of_fmap in Ht as (f & -> & _).
    split; [exact Hne|apply strip_trimmed].
  - apply Forall_fmap, Forall_true. intros f. apply strip_trimmed.
Qed.

(** X15: a questionnaire in which the delimiter does not occur is one
    fragment: the Questionnaire section has one list item, the questionnaire
    without the whitespace at its ends, or none when the questionnaire is
    empty or whitespace only. *)
Theorem questionnaire_without_delimiter (data : gmap pystr pyval) (q : pystr) :
  data !! py "questionnaire" = Some (PStr q) →
  contains delimiter q = false →
  from_option is_str_list true (data !! py "noc_codes") = true →
  ∃ n_items,
    markdown_content repr_container data
    = Ok (report repr_container data
            (if blank q then [] else [list_item (Str.strip q)]) n_items).
Proof.
  intros Hq Hc Hn. destruct (noc_codes_field data Hn) as (entries & Hn' & _).
  exists (noc_items entries).
  rewrite (markdown_content_report repr_container data q entries);
    [|by rewrite Hq|exact Hn'].
  unfold Str.split. rewrite split_at_last by assumption.
  rewrite fragment_items_blank. simpl. do 2 f_equal.
  destruct (blank q) eqn:Hb.
  - by rewrite filter_cons_False by by rewrite Hb.
  - by rewrite filter_cons_True by assumption.
Qed.

End ItemProperties.

(** ** Splitting and joining again *)

Lemma split_at_not_nil sep s : ∀ cur skip, Str.split_at sep cur skip s ≠ [].
Proof.
  induction s as [|c s IH]; intros cur skip; simpl; [done|].
  destruct skip; [|apply IH]. destruct (Str.startswith sep (c :: s)); [done|apply IH].
Qed.

Lemma split_at_skip sep s : ∀ cur skip,
  (skip ≤ length s)%nat →
  Str.split_at sep cur skip s = Str.split_at sep cur 0 (drop skip s).
Proof.
  induction s as [|c s IH]; intros cur skip Hk.
  - simpl in Hk. by replace skip with 0%nat by lia.
  - destruct skip as [|k]; [reflexivity|]. simpl in *. apply IH. lia.
Qed.

Lemma startswith_app p : ∀ s,
  Str.startswith p s = true → s = p ++ drop (length p) s.
Proof.
  induction p as [|a p IH]; intros s H; [reflexivity|].
  destruct s as [|b s]; [done|]. simpl in H.
  apply andb_prop in H as [Hab Hp]. apply N.eqb_eq in Hab as ->.
  simpl. f_equal. by apply IH.
Qed.

Lemma join_split_at sep (n : nat) : ∀ s cur,
  sep ≠ [] → (length s ≤ n)%nat →
  Str.join sep (Str.split_at sep cur 0 s) = cur ++ s.
Proof.
  induction n as [|n IH]; intros s cur Hsep Hn.
  - destruct s; [|simpl in Hn; lia]. simpl. by rewrite app_nil_r.
  - destruct s as [|c s]; [simpl; by rewrite app_nil_r|].
    change (Str.split_at sep cur 0 (c :: s))
      with (if Str.startswith sep (c :: s)
            then cur :: Str.split_at sep [] (length sep - 1) s
            else Str.split_at sep (cur ++ [c]) 0 s).
    destruct (Str.startswith sep (c :: s)) eqn:Hst.
    + apply startswith_app in Hst.
      destruct sep as [|a sep]; [done|].
      simpl in Hst. injection Hst as -> Hs.
      replace (length (a :: sep) - 1)%nat with (length sep) by (simpl; lia).
      rewrite split_at_skip
        by (apply (f_equal length) in Hs; rewrite length_app in Hs; lia).
      set (rest := drop (length sep) s) in *.
      pose proof (split_at_not_nil (a :: sep) rest [] 0) as Hne.
      specialize (IH rest [] Hsep).
      destruct (Str.split_at (a :: sep) [] 0 rest) as [|x l] eqn:Hsp; [done|].
      change (Str.join (a :: sep) (cur :: x :: l))
        with (cur ++ (a :: sep) ++ Str.join (a :: sep) (x :: l)).
      rewrite IH.
      * simpl. by rewrite <- Hs.
      * apply (f_equal length) in Hs. rewrite length_app in Hs.
        simpl in Hn. lia.
    + rewrite IH; [by rewrite <- app_assoc|done|simpl in Hn; lia].
Qed.

(** X16: splitting a questionnaire at the delimiter and joining the
    fragments with the delimiter gives the questionnaire back: the split
    drops nothing but the delimiters, and there is always at least one
    fragment. *)
Theorem split_join_delimiter (q : pystr) :
  Str.join delimiter (Str.split delimiter q) = q
  ∧ Str.split delimiter q ≠ [].
Proof.
  split.
  - apply (join_split_at delimiter (length q) q []); [done|lia].
  - apply split_at_not_nil.
Qed.

(** ** The script *)

Lemma call_outcome env text log :
  (∃ resp parsed,
      post env (roadmap_request text) = Ok resp
      ∧ status_code resp = 200%Z
      ∧ json resp = Ok parsed
      ∧ call_visa_roadmap_api env text log = (Ok parsed, log))
  ∨ (∃ msg, call_visa_roadmap_api env text log
            = (Ok PNone, log ++ [Error msg])).
Proof.
  unfold call_visa_roadmap_api, ui_try, ui_bind, ui_lift, ui_ret, st_error,
    roadmap_request.
  destruct (post env _) as [resp|e] eqn:Hp; [|right; by eexists].
  destruct (decide (status_code resp = 200%Z)) as [Hs|Hs].
  - rewrite Hs. cbv beta iota. destruct (json resp) as [parsed|e] eqn:Hj.
    + left. by exists resp, parsed.
    + right. by eexists.
  - apply Z.eqb_neq in Hs. rewrite Hs.
    destruct (status_code resp =? 404)%Z; right; by eexists.
Qed.

Section ScriptProperties.

Variable repr_container : pyval -> pystr.
Variable env : world.
Variable visit : session.

Lemma show_nocs_run nocs : ∀ shown,
  show_nocs nocs shown
  = (Done (),
     shown ++ concat ((λ noc, [Markdown noc; Markdown (PStr (py "---"))]) <$> nocs)).
Proof.
  induction nocs as [|noc nocs IH]; intros shown.
  - unfold show_nocs, page_ret. by rewrite app_nil_r.
  - cbn [show_nocs]. unfold page_bind, put. rewrite IH.
    rewrite fmap_cons. cbn [concat]. by rewrite <- !app_assoc.
Qed.

Lemma show_sidebar_run shown :
  show_sidebar shown = (Done (), shown ++ sidebar_elements).
Proof.
  unfold show_sidebar, page_bind, put, sidebar_elements.
  by rewrite <- !app_assoc.
Qed.

Lemma show_result_run answer roadmap crs_score job_roles noc_codes nocs shown :
  py_getitem answer (py "roadmap") = Ok roadmap →
  py_getitem answer (py "crs_score") = Ok crs_score →
  py_getitem answer (py "job_roles") = Ok job_roles →
  py_getitem answer (py "noc_codes") = Ok noc_codes →
  py_iter noc_codes = Ok nocs →
  show_result repr_container visit answer shown
  = match report_pdf repr_container visit answer with
    | Ok pdf_output =>
        (Done (),
         shown ++ display_elements roadmap crs_score job_roles nocs
         ++ [download_button pdf_output])
    | Raise e =>
        (Failed e, shown ++ display_elements roadmap crs_score job_roles nocs)
    end.
Proof.
  intros Hr Hc Hj Hn Hi.
  unfold show_result, page_bind, put, page_lift.
  rewrite Hr, Hc, Hj, Hn, Hi. cbv beta iota. rewrite show_nocs_run.
  unfold report_pdf, display_elements, res_bind.
  destruct (py_dict answer) as [data|e]; [|by rewrite <- !app_assoc].
  destruct (convert_dict_to_markdown repr_container data) as [response|e];
    [|by rewrite <- !app_assoc].
  destruct (markdown_pdf visit response) as [pdf_output|e];
    by rewrite <- !app_assoc.
Qed.

Lemma process_upload_run uploaded_file text log1 answer log2 shown :
  generate visit = true →
  extract_text_from_pdf env uploaded_file [] = (Ok text, log1) →
  call_visa_roadmap_api env text [] = (Ok answer, log2) →
  process_upload repr_container env visit uploaded_file shown
  = (if truthy answer then show_result repr_container visit answer
     else page_ret ())
      (shown ++ upload_elements text log1 log2).
Proof.
  intros Hg He Hc.
  unfold process_upload, page_bind, put, page_call, page_ret.
  rewrite He, Hg. cbv beta iota.
  assert (∀ (k : page ()) sh,
            match
              match text with
              | [] => λ shown0 : list element, (Done (), shown0)
              | _ :: _ =>
                  λ shown0 : list element,
                    (Done (),
                     ((shown0 ++ [Success (py "PDF text extracted successfully!")])
                      ++ [Expander (py "Preview extracted text") false])
                     ++ [Text (preview text)])
              end sh
            with
            | (Done _, shown') => k shown'
            | (Stopped, shown') => (Stopped, shown')
            | (Failed e, shown') => (Failed e, shown')
            end = k (sh ++ preview_elements text)) as Hpre.
  { intros k sh. destruct text; simpl.
    - by rewrite app_nil_r.
    - by rewrite <- !app_assoc. }
  rewrite Hpre, Hc. cbv beta iota. unfold upload_elements.
  by rewrite <- !app_assoc.
Qed.

Lemma script_run uploaded_file :
  secrets_contains visit (py "RAPIDAPI_KEY") = Ok true →
  uploaded visit = Some uploaded_file →
  script repr_container env visit []
  = page_bind (process_upload repr_container env visit uploaded_file)
      (λ _, show_sidebar) page_top.
Proof.
  intros Hk Hu. unfold script, page_bind, put, page_lift, page_ret.
  rewrite Hk, Hu. reflexivity.
Qed.

(** X17: without the key the run ends at [st.stop()] right after the
    configuration error: whatever file is uploaded and whether the button
    is pressed or not, there is no uploader, no extraction, no request and
    no sidebar. *)
Theorem script_missing_key :
  secrets_contains visit (py "RAPIDAPI_KEY") = Ok false →
  script repr_container env visit []
  = (Stopped,
     [PageConfig (py "Immigration Assessment Assistant") (py "wide");
      Title (py "Immigration Assessment Assistant");
      Message (Error (py "Please configure your RapidAPI key in .streamlit/secrets.toml"))]).
Proof.
  intros Hk. unfold script, page_bind, put, page_lift, st_stop.
  rewrite Hk. reflexivity.
Qed.

Lemma script_quiet_run (uploaded_file : UploadedFile) (text : pystr)
    (log1 log2 : list ui_event) (answer : pyval) :
  secrets_contains visit (py "RAPIDAPI_KEY") = Ok true →
  uploaded visit = Some uploaded_file →
  generate visit = true →
  extract_text_from_pdf env uploaded_file [] = (Ok text, log1) →
  call_visa_roadmap_api env text [] = (Ok answer, log2) →
  truthy answer = false →
  script repr_container env visit []
  = (Done (), page_top ++ upload_elements text log1 log2 ++ sidebar_elements).
Proof.
  intros Hk Hu Hg He Hc Ht. rewrite (script_run uploaded_file Hk Hu).
  unfold page_bind.
  rewrite (process_upload_run _ _ _ _ _ _ Hg He Hc), Ht.
  unfold page_ret. rewrite show_sidebar_run. by rewrite <- !app_assoc.
Qed.

(** X18: an answer of the roadmap service that is false as a condition
    ([null], [false], zero, an empty string, list or object) displays
    nothing: the run shows what led to the call and the sidebar, and ends
    normally.  For an empty object or list no message at all tells that
    nothing came back. *)
Theorem script_empty_answer (uploaded_file : UploadedFile) (text : pystr)
    (log1 log2 : list ui_event) (answer : pyval) :
  secrets_contains visit (py "RAPIDAPI_KEY") = Ok true →
  uploaded visit = Some uploaded_file →
  generate visit = true →
  extract_text_from_pdf env uploaded_file [] = (Ok text, log1) →
  call_visa_roadmap_api env text [] = (Ok answer, log2) →
  truthy answer = false →
  script repr_container env visit []
  = (Done (), page_top ++ upload_elements text log1 log2 ++ sidebar_elements).
Proof. apply script_quiet_run. Qed.

(** X19: when the display lacks one of the keys ['roadmap'], ['crs_score'],
    ['job_roles'] and ['noc_codes'] in an answer that is an object with at
    least one key, the run fails with the [KeyError] of a missing key:
    nothing catches it, and neither the download button nor the sidebar is
    shown.  The formatter's defaults for these four keys are never used by
    the script. *)
Theorem script_missing_display_key (uploaded_file : UploadedFile)
    (text : pystr) (log1 log2 : list ui_event)
    (items : list (pystr * pyval)) (missing : string) :
  secrets_contains visit (py "RAPIDAPI_KEY") = Ok true →
  uploaded visit = Some uploaded_file →
  generate visit = true →
  extract_text_from_pdf env uploaded_file [] = (Ok text, log1) →
  call_visa_roadmap_api env text [] = (Ok (PDict items), log2) →
  items ≠ [] →
  missing ∈ ["roadmap"; "crs_score"; "job_roles"; "noc_codes"]%string →
  dict_lookup items (py missing) = None →
  ∃ k shown,
    script repr_container env visit [] = (Failed (key_error (py k)), shown)
    ∧ k ∈ ["roadmap"; "crs_score"; "job_roles"; "noc_codes"]%string
    ∧ dict_lookup items (py k) = None
    ∧ Forall (λ e, closing e = false) shown.
Proof.
  intros Hk Hu Hg He Hc Hne Hin Hmiss.
  rewrite (script_run uploaded_file Hk Hu). unfold page_bind.
  rewrite (process_upload_run _ _ _ _ _ _ Hg He Hc).
  assert (truthy (PDict items) = true) as -> by by destruct items.
  assert (Forall (λ e, closing e = false)
            (page_top ++ upload_elements text log1 log2)) as Hclean.
  { apply Forall_app. split; [by repeat constructor|].
    unfold upload_elements. repeat (apply Forall_app; split);
      try by repeat constructor.
    - apply Forall_fmap, Forall_true. by intros [].
    - by destruct text; repeat constructor.
    - apply Forall_fmap, Forall_true. by intros []. }
  unfold show_result, page_bind, put, page_lift, py_getitem.
  destruct (dict_lookup items (py "roadmap")) as [a|] eqn:H1.
  2:{ exists "roadmap"%string. eexists. split; [reflexivity|].
      split; [repeat first [apply list_elem_of_here|apply list_elem_of_further]|].
      split; [done|].
      repeat (apply Forall_app_2; [|by repeat constructor]). exact Hclean. }
  destruct (dict_lookup items (py "crs_score")) as [b|] eqn:H2.
  2:{ exists "crs_score"%string. eexists. split; [reflexivity|].
      split; [repeat first [apply list_elem_of_here|apply list_elem_of_further]|].
      split; [done|].
      repeat (apply Forall_app_2; [|by repeat constructor]). exact Hclean. }
  destruct (dict_lookup items (py "job_roles")) as [c|] eqn:H3.
  2:{ exists "job_roles"%string. eexists. split; [reflexivity|].
      split; [repeat first [apply list_elem_of_here|apply list_elem_of_further]|].
      split; [done|].
      repeat (apply Forall_app_2; [|by repeat constructor]). exact Hclean. }
  destruct (dict_lookup items (py "noc_codes")) as [d|] eqn:H4.
  2:{ exists "noc_codes"%string. eexists. split; [reflexivity|].
      split; [repeat first [apply list_elem_of_here|apply list_elem_of_further]|].
      split; [done|].
      repeat (apply Forall_app_2; [|by repeat constructor]). exact Hclean. }
  exfalso. repeat (apply elem_of_cons in Hin as [->|Hin]; [congruence|]).
  by apply elem_of_nil in Hin.
Qed.

Lemma getitem_truthy answer k x :
  py_getitem answer k = Ok x → truthy answer = true.
Proof.
  destruct answer; try discriminate. simpl. by destruct items.
Qed.

(** X20: whenever the roadmap service fails, by its status, by a body that
    does not decode or by an exception of the request, a run with the key
    configured ends normally: it shows one error of the call, no result,
    and the sidebar. *)
Theorem script_service_failure (uploaded_file : UploadedFile) (key : pystr) :
  secrets_contains visit (py "RAPIDAPI_KEY") = Ok true →
  uploaded visit = Some uploaded_file →
  generate visit = true →
  secrets env (py "RAPIDAPI_KEY") = Ok key →
  (∀ text resp parsed,
      post env (roadmap_request text) = Ok resp →
      status_code resp = 200%Z →
      json resp = Ok parsed → False) →
  ∃ text log1 msg,
    script repr_container env visit []
    = (Done (),
       page_top ++ upload_elements text log1 [Error msg] ++ sidebar_elements).
Proof.
  intros Hk Hu Hg Hkey Hfail.
  destruct (extract_outcome env uploaded_file key [] Hkey)
    as (text & warned & failed & He & _).
  destruct (call_outcome env text [])
    as [(resp & parsed & Hp & Hs & Hj & _)|(msg & Hc)].
  - destruct (Hfail text resp parsed Hp Hs Hj).
  - exists text, (warned ++ failed), msg.
    by apply script_quiet_run with uploaded_file PNone.
Qed.

Lemma script_display_run uploaded_file text log1 log2 answer
    roadmap crs_score job_roles noc_codes nocs :
  secrets_contains visit (py "RAPIDAPI_KEY") = Ok true →
  uploaded visit = Some uploaded_file →
  generate visit = true →
  extract_text_from_pdf env uploaded_file [] = (Ok text, log1) →
  call_visa_roadmap_api env text [] = (Ok answer, log2) →
  py_getitem answer (py "roadmap") = Ok roadmap →
  py_getitem answer (py "crs_score") = Ok crs_score →
  py_getitem answer (py "job_roles") = Ok job_roles →
  py_getitem answer (py "noc_codes") = Ok noc_codes →
  py_iter noc_codes = Ok nocs →
  script repr_container env visit []
  = match report_pdf repr_container visit answer with
    | Ok pdf_output =>
        (Done (),
         page_top ++ upload_elements text log1 log2
         ++ display_elements roadmap crs_score job_roles nocs
         ++ [download_button pdf_output] ++ sidebar_elements)
    | Raise e =>
        (Failed e,
         page_top ++ upload_elements text log1 log2
         ++ display_elements roadmap crs_score job_roles nocs)
    end.
Proof.
  intros Hk Hu Hg He Hc Hr Hcrs Hj Hn Hi.
  rewrite (script_run uploaded_file Hk Hu). unfold page_bind.
  rewrite (process_upload_run _ _ _ _ _ _ Hg He Hc).
  rewrite (getitem_truthy _ _ _ Hr).
  rewrite (show_result_run _ _ _ _ _ _ _ Hr Hcrs Hj Hn Hi).
  destruct (report_pdf repr_container visit answer).
  - rewrite show_sidebar_run. by rewrite <- !app_assoc.
  - by rewrite <- !app_assoc.
Qed.

(** X21: when the answer has the four keys of the display, its
    ['noc_codes'] can be iterated and the report and its PDF are made, the
    run shows the four sections, with a rule after every NOC code, then the
    download button for the PDF of the report, named
    [immigration_assessment.pdf] and typed [application/pdf], and ends with
    the sidebar. *)
Theorem script_download (uploaded_file : UploadedFile) (text : pystr)
    (log1 log2 : list ui_event) (answer roadmap crs_score job_roles noc_codes : pyval)
    (nocs : list pyval) (pdf_output : list Byte.byte) :
  secrets_contains visit (py "RAPIDAPI_KEY") = Ok true →
  uploaded visit = Some uploaded_file →
  generate visit = true →
  extract_text_from_pdf env uploaded_file [] = (Ok text, log1) →
  call_visa_roadmap_api env text [] = (Ok answer, log2) →
  py_getitem answer (py "roadmap") = Ok roadmap →
  py_getitem answer (py "crs_score") = Ok crs_score →
  py_getitem answer (py "job_roles") = Ok job_roles →
  py_getitem answer (py "noc_codes") = Ok noc_codes →
  py_iter noc_codes = Ok nocs →
  report_pdf repr_container visit answer = Ok pdf_output →
  script repr_container env visit []
  = (Done (),
     page_top ++ upload_elements text log1 log2
     ++ display_elements roadmap crs_score job_roles nocs
     ++ [DownloadButton (py "Download Report as PDF") pdf_output
           (py "immigration_assessment.pdf") (py "application/pdf")]
     ++ sidebar_elements).
Proof.
  intros Hk Hu Hg He Hc Hr Hcrs Hj Hn Hi Hpdf.
  rewrite (script_display_run _ _ _ _ _ _ _ _ _ _ Hk Hu Hg He Hc Hr Hcrs Hj Hn Hi).
  by rewrite Hpdf.
Qed.

(** X22: when the display succeeds and the report or its PDF cannot be
    made, as for an answer whose ['questionnaire'] is [null], the four
    sections are on the page and the run then fails with the exception of
    the report: there is no download button and no sidebar. *)
Theorem script_report_fails (uploaded_file : UploadedFile) (text : pystr)
    (log1 log2 : list ui_event) (answer roadmap crs_score job_roles noc_codes : pyval)
    (nocs : list pyval) (e : exn) :
  secrets_contains visit (py "RAPIDAPI_KEY") = Ok true →
  uploaded visit = Some uploaded_file →
  generate visit = true →
  extract_text_from_pdf env uploaded_file [] = (Ok text, log1) →
  call_visa_roadmap_api env text [] = (Ok answer, log2) →
  py_getitem answer (py "roadmap") = Ok roadmap →
  py_getitem answer (py "crs_score") = Ok crs_score →
  py_getitem answer (py "job_roles") = Ok job_roles →
  py_getitem answer (py "noc_codes") = Ok noc_codes →
  py_iter noc_codes = Ok nocs →
  report_pdf repr_container visit answer = Raise e →
  script repr_container env visit []
  = (Failed e,
     page_top ++ upload_elements text log1 log2
     ++ display_elements roadmap crs_score job_roles nocs).
Proof.
  intros Hk Hu Hg He Hc Hr Hcrs Hj Hn Hi Hpdf.
  rewrite (script_display_run _ _ _ _ _ _ _ _ _ _ Hk Hu Hg He Hc Hr Hcrs Hj Hn Hi).
  by rewrite Hpdf.
Qed.

End ScriptProperties.

(** X23: the preview is never longer than 503 characters; it is the whole
    text when the text has at most 500 characters, and otherwise its first
    500 characters followed by three dots, so that its first 500 characters
    are always those of the text. *)
Theorem preview_bounds (extracted_text : pystr) :
  (length (preview extracted_text) ≤ 503)%nat
  ∧ take 500 (preview extracted_text) = take 500 extracted_text
  ∧ ((length extracted_text ≤ 500)%nat → preview extracted_text = extracted_text)
  ∧ ((500 < length extracted_text)%nat →
     preview extracted_text = take 500 extracted_text ++ py "..."
     ∧ length (preview extracted_text) = 503%nat).
Proof.
  unfold preview. destruct (Nat.ltb_spec 500 (length extracted_text)) as [H|H].
  - assert (length (take 500 extracted_text) = 500%nat) as Hlen
      by (rewrite length_take; lia).
    repeat split.
    + rewrite length_app, Hlen. simpl. lia.
    + rewrite take_app_le by lia. rewrite take_take. f_equal.
    + intros. lia.
    + rewrite length_app, Hlen. reflexivity.
  - repeat split; try done; intros; lia.
Qed.

(** ** Messages are only added *)

Lemma framed_ret {A} (a : A) : framed (ui_ret a).
Proof. intros log. unfold ui_ret. simpl. by rewrite app_nil_r. Qed.

Lemma framed_lift {A} (r : result A) : framed (ui_lift r).
Proof. intros log. unfold ui_lift. simpl. by rewrite app_nil_r. Qed.

Lemma framed_warning msg : framed (st_warning msg).
Proof. by intros log. Qed.

Lemma framed_error msg : framed (st_error msg).
Proof. by intros log. Qed.

Lemma framed_bind {A B} (m : ui A) (k : A → ui B) :
  framed m → (∀ a, framed (k a)) → framed (ui_bind m k).
Proof.
  intros Hm Hk log. unfold ui_bind. rewrite (Hm log).
  destruct (m []) as [[a|e] extra]; simpl; [|reflexivity].
  rewrite (Hk a (log ++ extra)), (Hk a extra). simpl. by rewrite app_assoc.
Qed.

Lemma framed_try {A} (m : ui A) (h : exn → ui A) :
  framed m → (∀ e, framed (h e)) → framed (ui_try m h).
Proof.
  intros Hm Hh log. unfold ui_try. rewrite (Hm log).
  destruct (m []) as [[a|e] extra]; simpl; [reflexivity|].
  rewrite (Hh e (log ++ extra)), (Hh e extra). simpl. by rewrite app_assoc.
Qed.

Lemma framed_fallback env pdf_file : framed (fallback_extract_text env pdf_file).
Proof.
  unfold fallback_extract_text. apply framed_try.
  - apply framed_bind; [apply framed_lift|]. intros pages.
    apply framed_bind; [apply framed_lift|]. intros text. apply framed_ret.
  - intros e. apply framed_bind; [apply framed_error|].
    intros _. apply framed_ret.
Qed.

(** X24: the three functions only add messages: each keeps the messages
    shown before it was called, and neither what it returns or raises nor
    the messages it adds depend on them. *)
Theorem messages_only_added (env : world) (pdf_file : UploadedFile)
    (text : pystr) :
  framed (fallback_extract_text env pdf_file)
  ∧ framed (extract_text_from_pdf env pdf_file)
  ∧ framed (call_visa_roadmap_api env text).
Proof.
  split; [apply framed_fallback|]. split.
  - unfold extract_text_from_pdf.
    apply framed_bind; [apply framed_lift|]. intros key.
    apply framed_try.
    + apply framed_bind; [apply framed_lift|]. intros resp.
      destruct (status_code resp =? 200)%Z; [|apply framed_fallback].
      apply framed_bind; [apply framed_lift|]. intros parsed.
      apply framed_bind; [apply framed_lift|]. intros extracted.
      apply framed_bind; [apply framed_lift|]. intros words. apply framed_ret.
    + intros e. apply framed_bind; [apply framed_warning|].
      intros _. apply framed_fallback.
  - unfold call_visa_roadmap_api. apply framed_try.
    + apply framed_bind; [apply framed_lift|]. intros resp.
      destruct (status_code resp =? 200)%Z; [apply framed_lift|].
      destruct (status_code resp =? 404)%Z;
        (apply framed_bind; [apply framed_error|]; intros _; apply framed_ret).
    + intros e. apply framed_bind; [apply framed_error|].
      intros _. apply framed_ret.
Qed.

(** ** The further properties at the sample inputs *)

Lemma extract_missing_key_witness :
  secrets no_key (py "RAPIDAPI_KEY") = Raise (key_error (py "RAPIDAPI_KEY"))
  ∧ extract_text_from_pdf no_key sample_file []
    = (Raise (key_error (py "RAPIDAPI_KEY")), []).
Proof.
  assert (secrets no_key (py "RAPIDAPI_KEY")
          = Raise (key_error (py "RAPIDAPI_KEY"))) as H by reflexivity.
  split; [exact H|].
  exact (extract_missing_key no_key sample_file _ [] H).
Defined.

Lemma extract_text_found_witness :
  secrets ocr_text (py "RAPIDAPI_KEY") = Ok (py "secret")
  ∧ post ocr_text (ocr_request (py "secret") sample_file)
    = Ok {| status_code := 200;
            json := Ok (PDict [(py "text", PStr (py " A" ++ nl ++ py "B  C "))]) |}
  ∧ dict_lookup [(py "text", PStr (py " A" ++ nl ++ py "B  C "))] (py "text")
    = Some (PStr (py " A" ++ nl ++ py "B  C "))
  ∧ extract_text_from_pdf ocr_text sample_file []
    = (Ok (normalize (py " A" ++ nl ++ py "B  C ")), [])
  ∧ ∀ reader,
      extract_text_from_pdf (with_reader ocr_text reader) sample_file []
      = (Ok (normalize (py " A" ++ nl ++ py "B  C ")), []).
Proof.
  assert (secrets ocr_text (py "RAPIDAPI_KEY") = Ok (py "secret")) as Hk
    by (vm_compute; reflexivity).
  assert (post ocr_text (ocr_request (py "secret") sample_file)
          = Ok {| status_code := 200;
                  json := Ok (PDict [(py "text",
                                      PStr (py " A" ++ nl ++ py "B  C "))]) |})
    as Hp by (vm_compute; reflexivity).
  assert (dict_lookup [(py "text", PStr (py " A" ++ nl ++ py "B  C "))] (py "text")
          = Some (PStr (py " A" ++ nl ++ py "B  C "))) as Ht
    by (vm_compute; reflexivity).
  repeat (split; [assumption|]).
  exact (extract_text_found ocr_text sample_file (py "secret") _ _ _ []
           Hk Hp eq_refl eq_refl Ht).
Defined.

Lemma extract_unusable_body_witness :
  secrets ocr_null_text (py "RAPIDAPI_KEY") = Ok (py "secret")
  ∧ post ocr_null_text (ocr_request (py "secret") sample_file)
    = Ok {| status_code := 200; json := Ok (PDict [(py "text", PNone)]) |}
  ∧ extract_text_from_pdf ocr_null_text sample_file []
    = fallback_extract_text ocr_null_text sample_file
        ([] ++ [Warning (py "Using fallback PDF extraction method")]).
Proof.
  assert (secrets ocr_null_text (py "RAPIDAPI_KEY") = Ok (py "secret")) as Hk
    by (vm_compute; reflexivity).
  assert (post ocr_null_text (ocr_request (py "secret") sample_file)
          = Ok {| status_code := 200; json := Ok (PDict [(py "text", PNone)]) |})
    as Hp by (vm_compute; reflexivity).
  repeat (split; [assumption|]).
  apply (extract_unusable_body ocr_null_text sample_file (py "secret") _ []
           Hk Hp eq_refl).
  right. right. exists [(py "text", PNone)], PNone.
  repeat split; vm_compute; reflexivity.
Defined.

Lemma fallback_pages_joined_witness :
  pdf_reader ocr_null_text sample_file
  = Ok (Ok <$> [py "first pa"; py "ge second  page "])
  ∧ fallback_extract_text ocr_null_text sample_file []
    = (Ok (normalize (concat [py "first pa"; py "ge second  page "])), []).
Proof.
  assert (pdf_reader ocr_null_text sample_file
          = Ok (Ok <$> [py "first pa"; py "ge second  page "])) as H
    by reflexivity.
  split; [exact H|].
  exact (fallback_pages_joined ocr_null_text sample_file _ [] H).
Defined.

(** The two pages read as three words. *)
Example pages_joined_words :
  normalize (concat [py "first pa"; py "ge second  page "])
  = py "first page second page".
Proof. reflexivity. Qed.

Lemma extract_never_raises_witness :
  secrets ocr_unavailable (py "RAPIDAPI_KEY") = Ok (py "secret")
  ∧ ∃ text warned failed,
      extract_text_from_pdf ocr_unavailable sample_file []
      = (Ok text, [] ++ warned ++ failed)
      ∧ normalize text = text
      ∧ (warned = []
         ∨ warned = [Warning (py "Using fallback PDF extraction method")])
      ∧ (failed = []
         ∨ ∃ e, failed = [Error (py "Error in text extraction: " ++ exn_str e)]
                ∧ text = []).
Proof.
  assert (secrets ocr_unavailable (py "RAPIDAPI_KEY") = Ok (py "secret")) as Hk
    by (vm_compute; reflexivity).
  split; [exact Hk|].
  exact (extract_never_raises ocr_unavailable sample_file (py "secret") [] Hk).
Defined.

Lemma call_undecodable_body_witness :
  post ocr_null_text (roadmap_request (py "A B C"))
  = Ok {| status_code := 200; json := not_json |}
  ∧ call_visa_roadmap_api ocr_null_text (py "A B C") []
    = (Ok PNone, [] ++ [Error (py "API Error: " ++ exn_str
         (Exn "JSONDecodeError" (py "Expecting value: line 1 column 1 (char 0)")))]).
Proof.
  assert (post ocr_null_text (roadmap_request (py "A B C"))
          = Ok {| status_code := 200; json := not_json |}) as Hp
    by (vm_compute; reflexivity).
  split; [exact Hp|].
  exact (call_undecodable_body ocr_null_text (py "A B C") _ _ [] Hp eq_refl eq_refl).
Defined.

Lemma convert_questionnaire_not_str_witness :
  null_questionnaire !! py "questionnaire" = Some PNone
  ∧ is_str PNone = false
  ∧ convert_dict_to_markdown sample_repr null_questionnaire
    = Raise (attribute_error PNone "split").
Proof.
  assert (null_questionnaire !! py "questionnaire" = Some PNone) as Hq
    by (vm_compute; reflexivity).
  split; [exact Hq|]. split; [reflexivity|].
  exact (convert_questionnaire_not_str sample_repr null_questionnaire PNone
           Hq eq_refl).
Defined.

Lemma convert_noc_codes_not_iterable_witness :
  from_option is_str true (noc_codes_number !! py "questionnaire") = true
  ∧ noc_codes_number !! py "noc_codes" = Some (PInt 21231)
  ∧ convert_dict_to_markdown sample_repr noc_codes_number
    = Raise (not_iterable (PInt 21231)).
Proof.
  assert (from_option is_str true (noc_codes_number !! py "questionnaire") = true)
    as Hq by (vm_compute; reflexivity).
  assert (noc_codes_number !! py "noc_codes" = Some (PInt 21231)) as Hn
    by (vm_compute; reflexivity).
  repeat (split; [assumption|]).
  apply (convert_noc_codes_not_iterable sample_repr noc_codes_number _ Hq Hn).
  right. right. left. by exists 21231%Z.
Defined.

Lemma convert_noc_entry_not_str_witness :
  from_option is_str true (noc_codes_with_null !! py "questionnaire") = true
  ∧ noc_codes_with_null !! py "noc_codes"
    = Some (PList ((PStr <$> [py "21231"]) ++ PNone :: [PStr (py "21232")]))
  ∧ convert_dict_to_markdown sample_repr noc_codes_with_null
    = Raise (attribute_error PNone "strip").
Proof.
  assert (from_option is_str true (noc_codes_with_null !! py "questionnaire")
          = true) as Hq by (vm_compute; reflexivity).
  assert (noc_codes_with_null !! py "noc_codes"
          = Some (PList ((PStr <$> [py "21231"]) ++ PNone
                         :: [PStr (py "21232")]))) as Hn
    by (vm_compute; reflexivity).
  repeat (split; [assumption|]).
  exact (convert_noc_entry_not_str sample_repr noc_codes_with_null
           [py "21231"] PNone [PStr (py "21232")] Hq Hn eq_refl).
Defined.

Lemma convert_noc_codes_string_witness :
  from_option is_str true (noc_codes_string !! py "questionnaire") = true
  ∧ noc_codes_string !! py "noc_codes" = Some (PStr (py "21 2"))
  ∧ ∃ q_items,
      markdown_content sample_repr noc_codes_string
      = Ok (report sample_repr noc_codes_string q_items
              ((λ c, list_item (if Str.isspace c then [] else [c]))
                 <$> py "21 2")).
Proof.
  assert (from_option is_str true (noc_codes_string !! py "questionnaire") = true)
    as Hq by (vm_compute; reflexivity).
  assert (noc_codes_string !! py "noc_codes" = Some (PStr (py "21 2"))) as Hn
    by (vm_compute; reflexivity).
  repeat (split; [assumption|]).
  exact (convert_noc_codes_string sample_repr noc_codes_string _ Hq Hn).
Defined.

Example noc_codes_string_items :
  markdown_content sample_repr noc_codes_string
  = Ok [title; heading1; py "- Age: 30" ++ nl; heading2; nl; heading3;
        py "- 2" ++ nl; py "- 1" ++ nl; py "- " ++ nl; py "- 2" ++ nl;
        heading4; nl; heading5; nl].
Proof. vm_compute. reflexivity. Qed.

Lemma convert_reads_five_keys_witness :
  sample_result !! py "questionnaire" = sample_result_more !! py "questionnaire"
  ∧ sample_result !! py "job_roles" = sample_result_more !! py "job_roles"
  ∧ sample_result !! py "noc_codes" = sample_result_more !! py "noc_codes"
  ∧ sample_result !! py "crs_score" = sample_result_more !! py "crs_score"
  ∧ sample_result !! py "roadmap" = sample_result_more !! py "roadmap"
  ∧ convert_dict_to_markdown sample_repr sample_result
    = convert_dict_to_markdown sample_repr sample_result_more.
Proof.
  assert (sample_result !! py "questionnaire"
          = sample_result_more !! py "questionnaire") as H1
    by (vm_compute; reflexivity).
  assert (sample_result !! py "job_roles" = sample_result_more !! py "job_roles")
    as H2 by (vm_compute; reflexivity).
  assert (sample_result !! py "noc_codes" = sample_result_more !! py "noc_codes")
    as H3 by (vm_compute; reflexivity).
  assert (sample_result !! py "crs_score" = sample_result_more !! py "crs_score")
    as H4 by (vm_compute; reflexivity).
  assert (sample_result !! py "roadmap" = sample_result_more !! py "roadmap")
    as H5 by (vm_compute; reflexivity).
  repeat (split; [assumption|]).
  exact (convert_reads_five_keys sample_repr sample_result sample_result_more
           H1 H2 H3 H4 H5).
Defined.

Lemma items_trimmed_witness :
  roadmap_result sample_result = true
  ∧ ∃ q_texts n_texts,
      markdown_content sample_repr sample_result
      = Ok (report sample_repr sample_result (list_item <$> q_texts)
              (list_item <$> n_texts))
      ∧ Forall (λ t, t ≠ [] ∧ trimmed t) q_texts
      ∧ Forall trimmed n_texts.
Proof.
  assert (roadmap_result sample_result = true) as H by (vm_compute; reflexivity).
  split; [exact H|].
  exact (items_trimmed sample_repr sample_result H).
Defined.

Lemma questionnaire_without_delimiter_witness :
  sample_result_no_noc !! py "questionnaire" = Some (PStr (py "Age: 30"))
  ∧ contains delimiter (py "Age: 30") = false
  ∧ from_option is_str_list true (sample_result_no_noc !! py "noc_codes") = true
  ∧ ∃ n_items,
      markdown_content sample_repr sample_result_no_noc
      = Ok (report sample_repr sample_result_no_noc
              (if blank (py "Age: 30") then []
               else [list_item (Str.strip (py "Age: 30"))]) n_items).
Proof.
  assert (sample_result_no_noc !! py "questionnaire" = Some (PStr (py "Age: 30")))
    as Hq by (vm_compute; reflexivity).
  assert (contains delimiter (py "Age: 30") = false) as Hc by reflexivity.
  assert (from_option is_str_list true (sample_result_no_noc !! py "noc_codes")
          = true) as Hn by (vm_compute; reflexivity).
  repeat (split; [assumption|]).
  exact (questionnaire_without_delimiter sample_repr sample_result_no_noc _
           Hq Hc Hn).
Defined.

Lemma preview_bounds_witness :
  (length (py "A B C") ≤ 500)%nat ∧ preview (py "A B C") = py "A B C".
Proof.
  assert (length (py "A B C") ≤ 500)%nat as H by (vm_compute; lia).
  split; [exact H|].
  exact (proj1 (proj2 (proj2 (preview_bounds (py "A B C")))) H).
Defined.

Lemma script_missing_key_witness :
  secrets_contains (visit_of false (Some sample_file) true) (py "RAPIDAPI_KEY")
  = Ok false
  ∧ script sample_repr ocr_unavailable (visit_of false (Some sample_file) true) []
    = (Stopped,
       [PageConfig (py "Immigration Assessment Assistant") (py "wide");
        Title (py "Immigration Assessment Assistant");
        Message (Error (py "Please configure your RapidAPI key in .streamlit/secrets.toml"))]).
Proof.
  assert (secrets_contains (visit_of false (Some sample_file) true)
            (py "RAPIDAPI_KEY") = Ok false) as H by reflexivity.
  split; [exact H|].
  exact (script_missing_key sample_repr ocr_unavailable
           (visit_of false (Some sample_file) true) H).
Defined.

Lemma script_empty_answer_witness :
  secrets_contains (visit_of true (Some sample_file) true) (py "RAPIDAPI_KEY")
  = Ok true
  ∧ uploaded (visit_of true (Some sample_file) true) = Some sample_file
  ∧ generate (visit_of true (Some sample_file) true) = true
  ∧ extract_text_from_pdf (roadmap_answers (PDict [])) sample_file []
    = (Ok (py "A B C"), [])
  ∧ call_visa_roadmap_api (roadmap_answers (PDict [])) (py "A B C") []
    = (Ok (PDict []), [])
  ∧ truthy (PDict []) = false
  ∧ script sample_repr (roadmap_answers (PDict []))
      (visit_of true (Some sample_file) true) []
    = (Done (),
       page_top ++ upload_elements (py "A B C") [] [] ++ sidebar_elements).
Proof.
  assert (extract_text_from_pdf (roadmap_answers (PDict [])) sample_file []
          = (Ok (py "A B C"), [])) as He by (vm_compute; reflexivity).
  assert (call_visa_roadmap_api (roadmap_answers (PDict [])) (py "A B C") []
          = (Ok (PDict []), [])) as Hc by (vm_compute; reflexivity).
  repeat (split; [first [assumption|reflexivity]|]).
  exact (script_empty_answer sample_repr (roadmap_answers (PDict []))
           (visit_of true (Some sample_file) true) sample_file (py "A B C")
           [] [] (PDict []) eq_refl eq_refl eq_refl He Hc eq_refl).
Defined.

Lemma script_missing_display_key_witness :
  extract_text_from_pdf (roadmap_answers partial_answer) sample_file []
  = (Ok (py "A B C"), [])
  ∧ call_visa_roadmap_api (roadmap_answers partial_answer) (py "A B C") []
    = (Ok partial_answer, [])
  ∧ py_getitem partial_answer (py "crs_score")
    = Raise (key_error (py "crs_score"))
  ∧ ∃ k shown,
      script sample_repr (roadmap_answers partial_answer)
        (visit_of true (Some sample_file) true) []
      = (Failed (key_error (py k)), shown)
      ∧ k ∈ ["roadmap"; "crs_score"; "job_roles"; "noc_codes"]%string
      ∧ py_getitem partial_answer (py k) = Raise (key_error (py k))
      ∧ Forall (λ e, closing e = false) shown.
Proof.
  assert (extract_text_from_pdf (roadmap_answers partial_answer) sample_file []
          = (Ok (py "A B C"), [])) as He by (vm_compute; reflexivity).
  assert (call_visa_roadmap_api (roadmap_answers partial_answer) (py "A B C") []
          = (Ok partial_answer, [])) as Hc by (vm_compute; reflexivity).
  assert (py_getitem partial_answer (py "crs_score")
          = Raise (key_error (py "crs_score"))) as Hm
    by (vm_compute; reflexivity).
  repeat (split; [assumption|]).
  destruct (script_missing_display_key sample_repr
              (roadmap_answers partial_answer)
              (visit_of true (Some sample_file) true) sample_file (py "A B C")
              [] [] _ "crs_score" eq_refl eq_refl eq_refl He Hc)
    as (k & shown & Hs & Hk & Hl & Hf).
  - discriminate.
  - apply list_elem_of_further, list_elem_of_here.
  - vm_compute. reflexivity.
  - exists k, shown. repeat split; try assumption.
    unfold py_getitem, partial_answer. by rewrite Hl.
Defined.

Lemma script_service_failure_witness :
  secrets ocr_unavailable (py "RAPIDAPI_KEY") = Ok (py "secret")
  ∧ (∀ text resp parsed,
        post ocr_unavailable (roadmap_request text) = Ok resp →
        status_code resp = 200%Z →
        json resp = Ok parsed → False)
  ∧ ∃ text log1 msg,
      script sample_repr ocr_unavailable (visit_of true (Some sample_file) true) []
      = (Done (),
         page_top ++ upload_elements text log1 [Error msg] ++ sidebar_elements).
Proof.
  assert (secrets ocr_unavailable (py "RAPIDAPI_KEY") = Ok (py "secret")) as Hk
    by (vm_compute; reflexivity).
  assert (∀ text resp parsed,
            post ocr_unavailable (roadmap_request text) = Ok resp →
            status_code resp = 200%Z →
            json resp = Ok parsed → False) as Hfail.
  { intros text resp parsed Hp Hs _.
    assert (post ocr_unavailable (roadmap_request text)
            = Ok {| status_code := 404; json := not_json |}) as Hp'
      by (vm_compute; reflexivity).
    rewrite Hp' in Hp. injection Hp as <-. discriminate Hs. }
  repeat (split; [assumption|]).
  exact (script_service_failure sample_repr ocr_unavailable
           (visit_of true (Some sample_file) true) sample_file (py "secret")
           eq_refl eq_refl eq_refl Hk Hfail).
Defined.

Lemma script_download_witness :
  extract_text_from_pdf (roadmap_answers sample_answer) sample_file []
  = (Ok (py "A B C"), [])
  ∧ call_visa_roadmap_api (roadmap_answers sample_answer) (py "A B C") []
    = (Ok sample_answer, [])
  ∧ report_pdf sample_repr (visit_of true (Some sample_file) true) sample_answer
    = Ok [Byte.x25; Byte.x50; Byte.x44; Byte.x46]
  ∧ script sample_repr (roadmap_answers sample_answer)
      (visit_of true (Some sample_file) true) []
    = (Done (),
       page_top ++ upload_elements (py "A B C") [] []
       ++ display_elements (PStr (py "Apply through Express Entry."))
            (PStr (py "470")) (PStr (py "Software developer"))
            (PStr <$> sample_noc_codes)
       ++ [DownloadButton (py "Download Report as PDF")
             [Byte.x25; Byte.x50; Byte.x44; Byte.x46]
             (py "immigration_assessment.pdf") (py "application/pdf")]
       ++ sidebar_elements).
Proof.
  assert (extract_text_from_pdf (roadmap_answers sample_answer) sample_file []
          = (Ok (py "A B C"), [])) as He by (vm_compute; reflexivity).
  assert (call_visa_roadmap_api (roadmap_answers sample_answer) (py "A B C") []
          = (Ok sample_answer, [])) as Hc by (vm_compute; reflexivity).
  assert (report_pdf sample_repr (visit_of true (Some sample_file) true)
            sample_answer = Ok [Byte.x25; Byte.x50; Byte.x44; Byte.x46]) as Hpdf
    by (vm_compute; reflexivity).
  repeat (split; [assumption|]).
  exact (script_download sample_repr (roadmap_answers sample_answer)
           (visit_of true (Some sample_file) true) sample_file (py "A B C")
           [] [] sample_answer _ _ _ (PList (PStr <$> sample_noc_codes)) _ _
           eq_refl eq_refl eq_refl He Hc eq_refl eq_refl eq_refl eq_refl eq_refl
           Hpdf).
Defined.

Lemma script_report_fails_witness :
  extract_text_from_pdf (roadmap_answers null_questionnaire_answer) sample_file []
  = (Ok (py "A B C"), [])
  ∧ call_visa_roadmap_api (roadmap_answers null_questionnaire_answer)
      (py "A B C") []
    = (Ok null_questionnaire_answer, [])
  ∧ report_pdf sample_repr (visit_of true (Some sample_file) true)
      null_questionnaire_answer
    = Raise (attribute_error PNone "split")
  ∧ script sample_repr (roadmap_answers null_questionnaire_answer)
      (visit_of true (Some sample_file) true) []
    = (Failed (attribute_error PNone "split"),
       page_top ++ upload_elements (py "A B C") [] []
       ++ display_elements (PStr (py "Apply through Express Entry."))
            (PStr (py "470")) (PStr (py "Software developer")) []).
Proof.
  assert (extract_text_from_pdf (roadmap_answers null_questionnaire_answer)
            sample_file [] = (Ok (py "A B C"), [])) as He
    by (vm_compute; reflexivity).
  assert (call_visa_roadmap_api (roadmap_answers null_questionnaire_answer)
            (py "A B C") [] = (Ok null_questionnaire_answer, [])) as Hc
    by (vm_compute; reflexivity).
  assert (report_pdf sample_repr (visit_of true (Some sample_file) true)
            null_questionnaire_answer
          = Raise (attribute_error PNone "split")) as Hpdf
    by (vm_compute; reflexivity).
  repeat (split; [assumption|]).
  exact (script_report_fails sample_repr (roadmap_answers null_questionnaire_answer)
           (visit_of true (Some sample_file) true) sample_file (py "A B C")
           [] [] null_questionnaire_answer _ _ _ (PList []) _ _
           eq_refl eq_refl eq_refl He Hc eq_refl eq_refl eq_refl eq_refl eq_refl
           Hpdf).
Defined.

(** The run that ends with the download, element by element. *)
Example script_download_page :
  script sample_repr (roadmap_answers sample_answer)
    (visit_of true (Some sample_file) true) []
  = (Done (),
     [PageConfig (py "Immigration Assessment Assistant") (py "wide");
      Title (py "Immigration Assessment Assistant");
      FileUploader (py "Upload your questionnaire PDF") (py "pdf");
      Spinner (py "Extracting text from PDF...");
      Success (py "PDF text extracted successfully!");
      Expander (py "Preview extracted text") false;
      Text (py "A B C");
      Button (py "Generate");
      Spinner (py "Processing...");
      Subheader (py "Your Immigration Roadmap");
      Expander (py "Roadmap") true;
      Markdown (PStr (py "Apply through Express Entry."));
      Expander (py "CRS Score Details") false;
      Markdown (PStr (py "470"));
      Expander (py "Eligible Job Roles") false;
      Markdown (PStr (py "Software developer"));
      Expander (py "NOC Codes") false;
      Markdown (PStr (py " 21231 ")); Markdown (PStr (py "---"));
      Markdown (PStr (py "  ")); Markdown (PStr (py "---"));
      DownloadButton (py "Download Report as PDF")
        [Byte.x25; Byte.x50; Byte.x44; Byte.x46]
        (py "immigration_assessment.pdf") (py "application/pdf");
      Sidebar; Header (py "How to Use"); Written how_to_use]).
Proof. vm_compute. reflexivity. Qed.

(** Without an upload there is neither a button nor a request. *)
Example script_without_upload :
  script sample_repr ocr_unavailable (visit_of true None true) []
  = (Done (), page_top ++ sidebar_elements).
Proof. vm_compute. reflexivity. Qed.
